(** * Real-time earthquake analytics: the acquisition and normalisation core

    A shallow embedding of [fetch_earthquake_data] and
    [process_earthquake_data] of [earthquakeApp.py], with the Python
    operations they rely on ([in], [len], [.get], subscripting, truth
    testing, [try]/[except] dispatch) written out, and the properties of the
    pipeline proved over it.

    Conventions.
    - A Python object decoded from JSON is a [json] tree; a [dict] is a
      [gmap] from [string] keys.
    - A [str] is a Rocq [string]; its characters stand for code points
      below 256.
    - A computation that may raise returns a [result]; the exception
      carries its class and its message.
    - [requests.get], [st.error], [pandas.to_datetime] and
      [pandas.DataFrame] are library calls: the transport is a parameter
      of the fetcher, the diagnostics channel is a log in the [World], and
      what [to_datetime] does outside the cases written out below is
      taken from a [Pandas] structure. *)

From Stdlib Require Import ZArith Floats.
From stdpp Require Import gmap strings list fin_maps pretty.

Set Default Proof Using "Type".
#[local] Set Warnings "-inexact-float,-register-all".

(** ** Python values *)

Inductive json : Type :=
  | JNull
  | JBool (b : bool)
  | JInt (n : Z)
  | JFloat (f : float)
  | JStr (s : string)
  | JArr (l : list json)
  | JObj (m : gmap string json).

Definition type_name (v : json) : string :=
  match v with
  | JNull => "NoneType"
  | JBool _ => "bool"
  | JInt _ => "int"
  | JFloat _ => "float"
  | JStr _ => "str"
  | JArr _ => "list"
  | JObj _ => "dict"
  end.

(** ** Exceptions *)

(** The exception classes the two functions can meet, with the classes of
    [requests.exceptions] that the handlers of the fetcher name. *)
Inductive exn_class : Set :=
  | Exception
  | LookupError
  | OSError
  | ValueError
  | TypeError
  | AttributeError
  | IndexError
  | KeyError
  | RequestException
  | InvalidJSONError
  | ConnectionError
  | Timeout
  | ConnectTimeout
  | ReadTimeout
  | HTTPError
  | JSONDecodeError.

#[global] Instance exn_class_eq_dec : EqDecision exn_class.
Proof. solve_decision. Defined.

(** The class itself followed by its base classes ([object] and
    [BaseException] left out). *)
Definition ancestors (c : exn_class) : list exn_class :=
  match c with
  | Exception => [Exception]
  | LookupError => [LookupError; Exception]
  | OSError => [OSError; Exception]
  | ValueError => [ValueError; Exception]
  | TypeError => [TypeError; Exception]
  | AttributeError => [AttributeError; Exception]
  | IndexError => [IndexError; LookupError; Exception]
  | KeyError => [KeyError; LookupError; Exception]
  | RequestException => [RequestException; OSError; Exception]
  | InvalidJSONError => [InvalidJSONError; RequestException; OSError; Exception]
  | ConnectionError => [ConnectionError; RequestException; OSError; Exception]
  | Timeout => [Timeout; RequestException; OSError; Exception]
  | ConnectTimeout =>
      [ConnectTimeout; ConnectionError; Timeout; RequestException; OSError; Exception]
  | ReadTimeout => [ReadTimeout; Timeout; RequestException; OSError; Exception]
  | HTTPError => [HTTPError; RequestException; OSError; Exception]
  | JSONDecodeError =>
      [JSONDecodeError; InvalidJSONError; RequestException; OSError; ValueError; Exception]
  end.

Record exn : Type := Exn { exn_cls : exn_class; exn_msg : string }.

(** [isinstance(e, c)], which is what an [except c] clause tests. *)
Definition isinstance (e : exn) (c : exn_class) : bool :=
  bool_decide (c ∈ ancestors (exn_cls e)).

Inductive result (A : Type) : Type :=
  | Ok (a : A)
  | Raise (e : exn).
Arguments Ok {A} a.
Arguments Raise {A} e.

#[global] Instance result_ret : MRet result := fun A a => Ok a.
#[global] Instance result_bind : MBind result := fun A B f r =>
  match r with
  | Ok a => f a
  | Raise e => Raise e
  end.

Definition raises {A : Type} (r : result A) (c : exn_class) : Prop :=
  ∃ msg, r = Raise (Exn c msg).

Definition returns {A : Type} (r : result A) : Prop := ∃ a, r = Ok a.

(** ** The operations of Python used by the two functions *)

(** Truth value of an object, as [not data] tests it. *)
Definition truthy (v : json) : bool :=
  match v with
  | JNull => false
  | JBool b => b
  | JInt n => negb (n =? 0)%Z
  | JFloat f => negb (f =? 0)%float
  | JStr s => negb (String.length s =? 0)
  | JArr l => negb (length l =? 0)
  | JObj m => negb (size m =? 0)
  end.

(** [p in s] on two strings: [p] occurs in [s]. *)
Fixpoint occurs_in (p s : string) : bool :=
  String.prefix p s ||
  match s with
  | EmptyString => false
  | String _ s' => occurs_in p s'
  end.

(** [x == key] for a string [key]: only an equal string compares equal. *)
Definition eq_str (key : string) (x : json) : bool :=
  match x with
  | JStr s => bool_decide (s = key)
  | _ => false
  end.

(** [key in v] for a string [key]: membership among the keys of a dict,
    among the elements of a list, as a substring of a str; a TypeError on
    anything else. *)
Definition py_contains (v : json) (key : string) : result bool :=
  match v with
  | JObj m => Ok (bool_decide (is_Some (m !! key)))
  | JArr l => Ok (existsb (eq_str key) l)
  | JStr s => Ok (occurs_in key s)
  | _ => Raise (Exn TypeError
                  ("argument of type '" +:+ type_name v +:+ "' is not iterable"))
  end.

(** [v[key]] for a string [key]. *)
Definition getitem_str (v : json) (key : string) : result json :=
  match v with
  | JObj m =>
      match m !! key with
      | Some x => Ok x
      | None => Raise (Exn KeyError key)
      end
  | JArr _ => Raise (Exn TypeError "list indices must be integers or slices, not str")
  | JStr _ => Raise (Exn TypeError "string indices must be integers")
  | _ => Raise (Exn TypeError ("'" +:+ type_name v +:+ "' object is not subscriptable"))
  end.

(** [v[i]] for a literal index [i] (0, 1 or 2 in the source). The keys of a
    decoded JSON object are strings, so an integer is never one of them. *)
Definition getitem_int (v : json) (i : nat) : result json :=
  match v with
  | JArr l =>
      match l !! i with
      | Some x => Ok x
      | None => Raise (Exn IndexError "list index out of range")
      end
  | JStr s =>
      match String.get i s with
      | Some c => Ok (JStr (String c EmptyString))
      | None => Raise (Exn IndexError "string index out of range")
      end
  | JObj _ => Raise (Exn KeyError (pretty i))
  | _ => Raise (Exn TypeError ("'" +:+ type_name v +:+ "' object is not subscriptable"))
  end.

(** [len(v)]. *)
Definition py_len (v : json) : result nat :=
  match v with
  | JArr l => Ok (length l)
  | JStr s => Ok (String.length s)
  | JObj m => Ok (size m)
  | _ => Raise (Exn TypeError ("object of type '" +:+ type_name v +:+ "' has no len()"))
  end.

Fixpoint chars (s : string) : list json :=
  match s with
  | EmptyString => []
  | String c s' => JStr (String c EmptyString) :: chars s'
  end.

(** The items [for x in v] runs over: the elements of a list, the
    characters of a str, the keys of a dict. *)
Definition py_iter (v : json) : result (list json) :=
  match v with
  | JArr l => Ok l
  | JStr s => Ok (chars s)
  | JObj m => Ok (JStr <$> (map_to_list m).*1)
  | _ => Raise (Exn TypeError ("'" +:+ type_name v +:+ "' object is not iterable"))
  end.

(** [v.get(key, dflt)]: only a dict has the method. *)
Definition py_get (v : json) (key : string) (dflt : json) : result json :=
  match v with
  | JObj m => Ok (default dflt (m !! key))
  | _ => Raise (Exn AttributeError
                  ("'" +:+ type_name v +:+ "' object has no attribute 'get'"))
  end.

(** ** The normaliser: [process_earthquake_data] *)

(** What [pd.to_datetime(x, unit="ms", errors="coerce")] returns: [None]
    for [None], a [Timestamp] (nanoseconds since the epoch), [NaT] for a
    value it could not convert, a [DatetimeIndex] for a list. *)
Inductive timeval : Type :=
  | TNone
  | NaT
  | Timestamp (ns : Z)
  | DatetimeIndex (ts : list timeval).

(** The time is absent when it is [None] or [NaT]. *)
Definition time_absent (t : timeval) : bool :=
  match t with
  | TNone | NaT => true
  | _ => false
  end.

(** The part of pandas that is taken as given. The source hands the time
    to [pd.to_datetime] and keeps what comes back (line 96), so what the
    call answers is the library's: for [None] it is [None] in some releases
    and [NaT] in others ([none_is_nat]); for a text, a float, a boolean and
    an integer beyond the range of [Timestamp] it is [coerce_scalar]; for a
    list it is [coerce_listlike]; for a mapping that is not empty it is
    [assemble_mapping], the assembly of dates from columns. On [None] and
    on a scalar the call is taken to return, as [errors="coerce"] says;
    on a list and on a mapping it may raise. *)
Class Pandas : Type := {
  none_is_nat : bool;
  coerce_scalar : json → timeval;
  coerce_listlike : list json → result timeval;
  assemble_mapping : gmap string json → result timeval
}.

(** A count of milliseconds whose [Timestamp], in nanoseconds, fits the 64
    bits of pandas ([Timestamp.min] to [Timestamp.max]). *)
Definition ms_in_range (n : Z) : bool :=
  ((-9223372036854775807 <=? n * 1000000) && (n * 1000000 <=? 9223372036854775807))%Z.

(** The columns of the frame, in the order of the keys of a record. *)
Definition record_columns : list string :=
  ["place"; "magnitude"; "time"; "longitude"; "latitude"; "depth_km";
   "tsunami_flag"; "felt_reports"].

(** One record of the source: a dict with these eight keys. *)
Record EventRecord : Type := mkRecord {
  place : json;
  magnitude : json;
  time : timeval;
  longitude : json;
  latitude : json;
  depth_km : json;
  tsunami_flag : json;
  felt_reports : json
}.

Record DataFrame : Type := mkFrame {
  columns : list string;
  rows : list EventRecord
}.

(** [pd.DataFrame(columns=[...])]: the named columns and no row. *)
Definition DataFrame_of_columns (cols : list string) : DataFrame :=
  {| columns := cols; rows := [] |}.

(** [pd.DataFrame(records)] on a list of dicts: one row per dict, the
    columns being the keys met; no column at all for an empty list. *)
Definition DataFrame_of_records (records : list EventRecord) : DataFrame :=
  {| columns := match records with [] => [] | _ :: _ => record_columns end;
     rows := records |}.

Section Normalizer.
Context {pd : Pandas}.

(** [pd.to_datetime(x, unit="ms", errors="coerce")]. An integer is a count
    of milliseconds ([unit="ms"]), and within the range of [Timestamp] it
    is that instant, here in nanoseconds. A mapping is sent to the assembly
    of dates from columns named year, month and day; without these
    columns, as in an empty mapping, the assembly raises a ValueError
    whatever [errors] says. The other answers are those of [Pandas]. *)
Definition to_datetime_ms (x : json) : result timeval :=
  match x with
  | JNull => Ok (if none_is_nat then NaT else TNone)
  | JInt n => Ok (if ms_in_range n then Timestamp (n * 1000000) else coerce_scalar x)
  | JFloat _ | JBool _ | JStr _ => Ok (coerce_scalar x)
  | JArr l => coerce_listlike l
  | JObj m =>
      if size m =? 0 then
        Raise (Exn ValueError
          ("to assemble mappings requires at least that [year, month, day] be specified: "
           +:+ "[day,month,year] is missing"))
      else assemble_mapping m
  end.

(** The body of the loop up to the dict it appends (lines 89 to 102). *)
Definition process_feature (feature : json) : result EventRecord :=
  properties ← py_get feature "properties" (JObj ∅);
  geometry ← py_get feature "geometry" (JObj ∅);
  coordinates ← py_get geometry "coordinates" (JArr [JNull; JNull; JNull]);
  r_place ← py_get properties "place" JNull;
  r_magnitude ← py_get properties "mag" JNull;
  t ← py_get properties "time" JNull;
  r_time ← to_datetime_ms t;
  r_longitude ← getitem_int coordinates 0;
  r_latitude ← getitem_int coordinates 1;
  r_depth_km ← getitem_int coordinates 2;
  r_tsunami_flag ← py_get properties "tsunami" JNull;
  r_felt_reports ← py_get properties "felt" JNull;
  mret {| place := r_place; magnitude := r_magnitude; time := r_time;
          longitude := r_longitude; latitude := r_latitude;
          depth_km := r_depth_km; tsunami_flag := r_tsunami_flag;
          felt_reports := r_felt_reports |}.

(** The [for] loop: each feature in turn, its record appended to
    [records]; the first exception ends it. *)
Fixpoint for_features (features : list json) (records : list EventRecord)
  : result (list EventRecord) :=
  match features with
  | [] => Ok records
  | feature :: rest =>
      r ← process_feature feature;
      for_features rest (records ++ [r])
  end.

Definition process_earthquake_data (data : json) : result DataFrame :=
  if negb (truthy data) then Ok (DataFrame_of_columns record_columns) else
  has ← py_contains data "features";
  if negb has then Ok (DataFrame_of_columns record_columns) else
  fs ← getitem_str data "features";
  n ← py_len fs;
  if n =? 0 then Ok (DataFrame_of_columns record_columns) else
  fs ← getitem_str data "features";
  features ← py_iter fs;
  records ← for_features features [];
  mret (DataFrame_of_records records).

End Normalizer.

(** A [Pandas] structure to evaluate with, for payloads whose times are
    integers in range, strings, empty mappings or absent: it answers [None]
    on [None] and [NaT] on the scalars it is asked about, and finds no
    date in a mapping. *)
Definition pandas_plain : Pandas :=
  {| none_is_nat := false;
     coerce_scalar := fun _ => NaT;
     coerce_listlike := fun l => Ok (DatetimeIndex ((fun _ => NaT) <$> l));
     assemble_mapping := fun _ =>
       Raise (Exn ValueError "If using all scalar values, you must pass an index") |}.

(** ** The fetcher: [fetch_earthquake_data] *)

(** A call of [requests]: the method, the URL, the query parameters and
    the timeout. *)
Record Request : Type := mkRequest {
  req_method : string;
  req_url : string;
  req_params : list (string * json);
  req_timeout : Z
}.

(** What the fetcher reads of a [requests.Response]: the status line, the
    final URL, the decoded body, and what [.json()] makes of it ([None]
    when the body is not JSON). *)
Record Response : Type := mkResponse {
  status_code : Z;
  reason : string;
  resp_url : string;
  text : string;
  json_body : option json
}.

(** The two channels the fetcher acts on: the requests sent to the network
    and the messages shown with [st.error]. *)
Record World : Type := mkWorld {
  sent : list Request;
  shown : list string
}.

Definition IO (A : Type) : Type := World → result A * World.

#[global] Instance IO_ret : MRet IO := fun A a w => (Ok a, w).
#[global] Instance IO_bind : MBind IO := fun A B f m w =>
  match m w with
  | (Ok a, w') => f a w'
  | (Raise e, w') => (Raise e, w')
  end.

Definition io_raise {A : Type} (e : exn) : IO A := fun w => (Raise e, w).

(** A computation that touches neither channel. *)
Definition io_lift {A : Type} (r : result A) : IO A := fun w => (r, w).

(** [try: body except Exception as e: handler e]; the handlers of the
    source are told apart inside [handler], in the order of the clauses. *)
Definition try_except {A : Type} (body : IO A) (handler : exn → IO A) : IO A :=
  fun w =>
    match body w with
    | (Ok a, w') => (Ok a, w')
    | (Raise e, w') => handler e w'
    end.

Definition st_error (msg : string) : IO unit :=
  fun w => (Ok tt, {| sent := sent w; shown := shown w ++ [msg] |}).

(** [str.isspace] on a code point below 256. *)
Definition isspace (c : Ascii.ascii) : bool :=
  let n := Ascii.nat_of_ascii c in
  ((9 <=? n) && (n <=? 13)) || ((28 <=? n) && (n <=? 32)) || (n =? 133) || (n =? 160).

Fixpoint lstrip (s : string) : string :=
  match s with
  | EmptyString => EmptyString
  | String c s' => if isspace c then lstrip s' else s
  end.

(** [s.strip()]. *)
Definition strip (s : string) : string :=
  String.rev (lstrip (String.rev (lstrip s))).

(** [response.raise_for_status()]. *)
Definition raise_for_status (r : Response) : IO unit :=
  if ((400 <=? status_code r) && (status_code r <? 500))%Z then
    io_raise (Exn HTTPError
      (pretty (status_code r) +:+ " Client Error: " +:+ reason r
       +:+ " for url: " +:+ resp_url r))
  else if ((500 <=? status_code r) && (status_code r <? 600))%Z then
    io_raise (Exn HTTPError
      (pretty (status_code r) +:+ " Server Error: " +:+ reason r
       +:+ " for url: " +:+ resp_url r))
  else mret tt.

(** [response.json()]. *)
Definition response_json (r : Response) : IO json :=
  match json_body r with
  | Some data => mret data
  | None => io_raise (Exn JSONDecodeError "Expecting value")
  end.

(** The canonical empty payload [{"features": []}]. *)
Definition empty_payload : json := JObj {[ "features" := JArr [] ]}.

Section Fetcher.
(** The remote service and the transport: the response to a request, or
    the exception [requests.get] raises for it. *)
Variable net : Request → result Response.

(** [requests.get(url, params=params, timeout=timeout)]: the request goes
    out, and the network answers. *)
Definition requests_get (url : string) (params : list (string * json)) (timeout : Z)
  : IO Response :=
  fun w =>
    let rq := {| req_method := "GET"; req_url := url;
                 req_params := params; req_timeout := timeout |} in
    (net rq, {| sent := sent w ++ [rq]; shown := shown w |}).

Definition fetch_earthquake_data (min_magnitude : float) (limit : Z) : IO json :=
  let url := "https://earthquake.usgs.gov/fdsnws/event/1/query" in
  let params := [("format", JStr "geojson"); ("orderby", JStr "time");
                 ("minmagnitude", JFloat min_magnitude); ("limit", JInt limit)] in
  try_except
    (response ← requests_get url params 10;
     _ ← raise_for_status response;
     _ ← (if negb (truthy (JStr (strip (text response))))
          then io_raise (Exn ValueError "Empty response received from API")
          else mret tt);
     data ← response_json response;
     has ← io_lift (py_contains data "features");
     if negb has
     then io_raise (Exn ValueError "Unexpected API response structure")
     else mret data)
    (fun e =>
       if isinstance e Timeout then
         _ ← st_error "Request timed out while contacting the earthquake API.";
         mret empty_payload
       else if isinstance e HTTPError then
         _ ← st_error ("HTTP error occurred: " +:+ exn_msg e);
         mret empty_payload
       else if isinstance e JSONDecodeError then
         _ ← st_error "Failed to decode API response as JSON.";
         mret empty_payload
       else
         _ ← st_error ("Unexpected error occurred: " +:+ exn_msg e);
         mret empty_payload).

End Fetcher.

(** ** The vocabulary of the specification *)

(** A payload that is a mapping with the top-level key [features]. *)
Definition has_features (v : json) : bool :=
  match v with
  | JObj m => bool_decide (is_Some (m !! "features"))
  | _ => false
  end.

(** The value of [properties.<key>] of a feature, absent ([JNull]) when
    [properties] or the key is missing. *)
Definition prop_field (feature : json) (key : string) : json :=
  match feature with
  | JObj fm =>
      match fm !! "properties" with
      | Some (JObj p) => default JNull (p !! key)
      | _ => JNull
      end
  | _ => JNull
  end.

(** The value under [geometry.coordinates] of a feature, when both keys
    are there. *)
Definition geometry_coordinates (feature : json) : option json :=
  match feature with
  | JObj fm =>
      match fm !! "geometry" with
      | Some (JObj g) => g !! "coordinates"
      | _ => None
      end
  | _ => None
  end.

(** Position [i] of [geometry.coordinates], absent when there is no such
    sequence or no such position. *)
Definition coordinate (feature : json) (i : nat) : json :=
  match geometry_coordinates feature with
  | Some (JArr c) => default JNull (c !! i)
  | _ => JNull
  end.

(** A feature without [geometry.coordinates] because a key is missing: it
    is a mapping without the key [geometry], or its [geometry] is a
    mapping without the key [coordinates]. *)
Definition coordinates_missing (feature : json) : bool :=
  match feature with
  | JObj fm =>
      match fm !! "geometry" with
      | None => true
      | Some (JObj g) =>
          match g !! "coordinates" with
          | None => true
          | Some _ => false
          end
      | Some _ => false
      end
  | _ => false
  end.

(** A time that is missing or null, or a count of milliseconds within the
    range of [Timestamp]. *)
Definition epoch_or_missing (t : json) : bool :=
  match t with
  | JNull => true
  | JInt n => ms_in_range n
  | _ => false
  end.

(** A value [to_datetime] takes as a scalar. *)
Definition scalar (v : json) : bool :=
  match v with
  | JArr _ | JObj _ => false
  | _ => true
  end.

(** A well-formed feature: a mapping whose [properties], when present, is
    a mapping with a scalar [time] (or none), and whose [geometry], when
    present, is a mapping whose [coordinates], when present, is a sequence
    of three elements or more. *)
Definition well_formed_feature (feature : json) : bool :=
  match feature with
  | JObj fm =>
      match fm !! "properties" with
      | None => true
      | Some (JObj p) => scalar (default JNull (p !! "time"))
      | Some _ => false
      end &&
      match fm !! "geometry" with
      | None => true
      | Some (JObj g) =>
          match g !! "coordinates" with
          | None => true
          | Some (JArr c) => 3 <=? length c
          | Some _ => false
          end
      | Some _ => false
      end
  | _ => false
  end.

(** The failures of the fetcher, by kind. *)
Inductive failure : Type :=
  | TimeoutError
  | HttpStatusError (detail : string)
  | EmptyResponseError
  | MalformedBodyError
  | UnexpectedStructureError
  | UnknownError (detail : string).

(** The diagnostic shown for each kind of failure. *)
Definition diagnostic (f : failure) : string :=
  match f with
  | TimeoutError => "Request timed out while contacting the earthquake API."
  | HttpStatusError detail => "HTTP error occurred: " +:+ detail
  | MalformedBodyError => "Failed to decode API response as JSON."
  | EmptyResponseError => "Unexpected error occurred: Empty response received from API"
  | UnexpectedStructureError =>
      "Unexpected error occurred: Unexpected API response structure"
  | UnknownError detail => "Unexpected error occurred: " +:+ detail
  end.

(** A body that is empty once the white space is trimmed. *)
Fixpoint blank (s : string) : bool :=
  match s with
  | EmptyString => true
  | String c s' => isspace c && blank s'
  end.

(** The failure a transport exception stands for. *)
Definition transport_failure (e : exn) : failure :=
  match exn_cls e with
  | Timeout | ConnectTimeout | ReadTimeout => TimeoutError
  | HTTPError => HttpStatusError (exn_msg e)
  | JSONDecodeError => MalformedBodyError
  | _ => UnknownError (exn_msg e)
  end.

(** What the fetcher makes of an outcome of the network, check by check
    and in the order of lines 37 to 46: transport, status, non-empty
    body, well-formed body, the test [in] on the decoded body. Either the
    failure met first, or the decoded body. The last check is the one of
    the source: [features] is looked for among the keys of a mapping, the
    elements of a list, the substrings of a text; a body that is none of
    these cannot be searched, which is a failure of its own kind. *)
Definition validate (outcome : result Response) : failure + json :=
  match outcome with
  | Raise e => inl (transport_failure e)
  | Ok r =>
      if ((400 <=? status_code r) && (status_code r <? 500))%Z then
        inl (HttpStatusError (pretty (status_code r) +:+ " Client Error: "
                                +:+ reason r +:+ " for url: " +:+ resp_url r))
      else if ((500 <=? status_code r) && (status_code r <? 600))%Z then
        inl (HttpStatusError (pretty (status_code r) +:+ " Server Error: "
                                +:+ reason r +:+ " for url: " +:+ resp_url r))
      else if blank (text r) then inl EmptyResponseError
      else
        match json_body r with
        | None => inl MalformedBodyError
        | Some data =>
            match data with
            | JObj m => if m !! "features" is Some _ then inr data
                        else inl UnexpectedStructureError
            | JArr l => if existsb (eq_str "features") l then inr data
                        else inl UnexpectedStructureError
            | JStr s => if occurs_in "features" s then inr data
                        else inl UnexpectedStructureError
            | _ => inl (UnknownError ("argument of type '" +:+ type_name data
                                        +:+ "' is not iterable"))
            end
        end
  end.

(** The validation in the words of section 4.1, (a) to (e): the transport
    succeeded, the status is not one of an error, the body is not empty
    once trimmed, it parses, and the parsed body contains the top-level
    key [features], which only a mapping does. Either the failure met
    first, or the parsed body. *)
Definition spec_validate (outcome : result Response) : failure + json :=
  match outcome with
  | Raise e => inl (transport_failure e)
  | Ok r =>
      if ((400 <=? status_code r) && (status_code r <? 500))%Z then
        inl (HttpStatusError (pretty (status_code r) +:+ " Client Error: "
                                +:+ reason r +:+ " for url: " +:+ resp_url r))
      else if ((500 <=? status_code r) && (status_code r <? 600))%Z then
        inl (HttpStatusError (pretty (status_code r) +:+ " Server Error: "
                                +:+ reason r +:+ " for url: " +:+ resp_url r))
      else if blank (text r) then inl EmptyResponseError
      else
        match json_body r with
        | None => inl MalformedBodyError
        | Some data =>
            if has_features data then inr data else inl UnexpectedStructureError
        end
  end.

(** The one request of the fetcher for a filter. *)
Definition catalog_request (min_magnitude : float) (limit : Z) : Request :=
  {| req_method := "GET";
     req_url := "https://earthquake.usgs.gov/fdsnws/event/1/query";
     req_params := [("format", JStr "geojson"); ("orderby", JStr "time");
                    ("minmagnitude", JFloat min_magnitude); ("limit", JInt limit)];
     req_timeout := 10 |}.

(** The filters of the dashboard: a magnitude from 0.0 to 8.0 and one of
    the four limits. *)
Definition valid_filter (min_magnitude : float) (limit : Z) : Prop :=
  (0 <=? min_magnitude)%float = true ∧ (min_magnitude <=? 8)%float = true ∧
  limit ∈ [50; 100; 250; 500]%Z.

(** The features of a payload: the sequence under [features] of a mapping. *)
Definition features_of (data : json) : list json :=
  match data with
  | JObj m =>
      match m !! "features" with
      | Some (JArr fs) => fs
      | _ => []
      end
  | _ => []
  end.

(** The payloads the normaliser is total on: the ones that test false
    ([None], an empty mapping), the mappings without [features], and the
    mappings whose [features] is a sequence of well-formed features. *)
Definition admissible (data : json) : Prop :=
  truthy data = false ∨
  ∃ m, data = JObj m ∧
       (m !! "features" = None ∨
        ∃ fs, m !! "features" = Some (JArr fs) ∧
              Forall (λ f, well_formed_feature f = true) fs).

(** The record of a feature as section 4.2 maps it, field by field. *)
Definition record_matches `{Pandas} (feature : json) (r : EventRecord) : Prop :=
  place r = prop_field feature "place" ∧
  magnitude r = prop_field feature "mag" ∧
  to_datetime_ms (prop_field feature "time") = Ok (time r) ∧
  longitude r = coordinate feature 0 ∧
  latitude r = coordinate feature 1 ∧
  depth_km r = coordinate feature 2 ∧
  tsunami_flag r = prop_field feature "tsunami" ∧
  felt_reports r = prop_field feature "felt".

(** A double quote, for the text of a body. *)
Definition dquote : string := String (Ascii.ascii_of_nat 34) EmptyString.

(** ** Sample data *)

(** The well-formed feature of the scenarios of section 8. *)
Definition sample_feature : json :=
  JObj {[ "properties" :=
            JObj {[ "place" := JStr "10km N of Test"; "mag" := JFloat 4.5;
                    "time" := JInt 1700000000000; "tsunami" := JInt 0;
                    "felt" := JInt 12 ]};
          "geometry" :=
            JObj {[ "coordinates" := JArr [JFloat (-122.4); JFloat 37.8; JFloat 10.5] ]} ]}.

(** A feature with [properties] and no [geometry]. *)
Definition feature_without_geometry : json :=
  JObj {[ "properties" := JObj {[ "place" := JStr "Off the coast"; "mag" := JFloat 5.1 ]} ]}.

(** A feature whose [coordinates] has a fourth element. *)
Definition feature_four_coordinates : json :=
  JObj {[ "geometry" :=
            JObj {[ "coordinates" :=
                      JArr [JFloat 142.5; JFloat 38.25; JFloat 29.0; JStr "extra"] ]} ]}.

(** A feature whose [coordinates] stops after the latitude. *)
Definition feature_two_coordinates : json :=
  JObj {[ "geometry" := JObj {[ "coordinates" := JArr [JFloat 142.5; JFloat 38.25] ]} ]}.


(** A feature whose [time] is the empty mapping. *)
Definition feature_mapping_time : json :=
  JObj {[ "properties" := JObj {[ "time" := JObj ∅ ]} ]}.

(** A feature whose [time] is a text that is not a number. *)
Definition feature_text_time : json :=
  JObj {[ "properties" := JObj {[ "time" := JStr "yesterday" ]} ]}.

Definition payload_of (features : list json) : json :=
  JObj {[ "features" := JArr features ]}.

(** A response of the service with status 200 whose body is the JSON
    array holding the one string [features]. *)
Definition list_body_response : Response :=
  {| status_code := 200;
     reason := "OK";
     resp_url := "https://earthquake.usgs.gov/fdsnws/event/1/query";
     text := "[" +:+ dquote +:+ "features" +:+ dquote +:+ "]";
     json_body := Some (JArr [JStr "features"]) |}.

Definition fresh_world : World := {| sent := []; shown := [] |}.

(** ** The normaliser over a store of objects

    The lists and dicts of Python are objects with an identity: two names
    can refer to one list, and a write through one is seen through the
    other. To speak of what [process_earthquake_data] writes and of what
    its result shares with its argument, the same function is embedded
    here over a store: a list or a dict is an object at a location, a
    value is a scalar or a reference to a location, [alloc] creates an
    object and [list_append] writes one. *)

Module Store.

Abbreviation loc := nat.

Inductive val : Type :=
  | VNone
  | VBool (b : bool)
  | VInt (n : Z)
  | VFloat (f : float)
  | VStr (s : string)
  | VTime (t : timeval)
  | VRef (l : loc).

Inductive obj : Type :=
  | ODict (m : gmap string val)
  | OList (xs : list val).

(** The store: the object at each location allocated so far. *)
Abbreviation heap := (list obj).

(** The frame built by pandas: it is created by the call and nothing else
    refers to it, so it is kept as a value; its cells are the values of
    the records. *)
Record DataFrame : Type := mkFrame {
  columns : list string;
  rows : list (gmap string val)
}.

Definition M (A : Type) : Type := heap → result A * heap.

#[global] Instance M_ret : MRet M := fun A a h => (Ok a, h).
#[global] Instance M_bind : MBind M := fun A B f m h =>
  match m h with
  | (Ok a, h') => f a h'
  | (Raise e, h') => (Raise e, h')
  end.

(** An operation that reads the store and writes nothing. *)
Definition observe {A : Type} (f : heap → result A) : M A := fun h => (f h, h).

(** The creation of an object, at the next location. *)
Definition alloc (o : obj) : M val := fun h => (Ok (VRef (length h)), h ++ [o]).

(** [l.append(x)]: the one write of the function. *)
Definition list_append (l x : val) : M unit := fun h =>
  match l with
  | VRef a =>
      match h !! a with
      | Some (OList xs) => (Ok tt, <[a := OList (xs ++ [x])]> h)
      | _ => (Raise (Exn AttributeError "object has no attribute 'append'"), h)
      end
  | _ => (Raise (Exn AttributeError "object has no attribute 'append'"), h)
  end.

(** A location outside the store stands for an object of another kind. *)
Definition type_name (h : heap) (v : val) : string :=
  match v with
  | VNone => "NoneType"
  | VBool _ => "bool"
  | VInt _ => "int"
  | VFloat _ => "float"
  | VStr _ => "str"
  | VTime _ => "Timestamp"
  | VRef l =>
      match h !! l with
      | Some (ODict _) => "dict"
      | Some (OList _) => "list"
      | None => "object"
      end
  end.

Definition truthy (h : heap) (v : val) : bool :=
  match v with
  | VNone => false
  | VBool b => b
  | VInt n => negb (n =? 0)%Z
  | VFloat f => negb (f =? 0)%float
  | VStr s => negb (String.length s =? 0)
  | VTime _ => true
  | VRef l =>
      match h !! l with
      | Some (ODict m) => negb (size m =? 0)
      | Some (OList xs) => negb (length xs =? 0)
      | None => true
      end
  end.

Definition eq_str (key : string) (x : val) : bool :=
  match x with
  | VStr s => bool_decide (s = key)
  | _ => false
  end.

Definition py_contains (v : val) (key : string) (h : heap) : result bool :=
  match v with
  | VStr s => Ok (occurs_in key s)
  | VRef l =>
      match h !! l with
      | Some (ODict m) => Ok (bool_decide (is_Some (m !! key)))
      | Some (OList xs) => Ok (existsb (eq_str key) xs)
      | None => Raise (Exn TypeError
                         ("argument of type '" +:+ type_name h v +:+ "' is not iterable"))
      end
  | _ => Raise (Exn TypeError
                  ("argument of type '" +:+ type_name h v +:+ "' is not iterable"))
  end.

Definition getitem_str (v : val) (key : string) (h : heap) : result val :=
  match v with
  | VStr _ => Raise (Exn TypeError "string indices must be integers")
  | VRef l =>
      match h !! l with
      | Some (ODict m) =>
          match m !! key with
          | Some x => Ok x
          | None => Raise (Exn KeyError key)
          end
      | Some (OList _) =>
          Raise (Exn TypeError "list indices must be integers or slices, not str")
      | None =>
          Raise (Exn TypeError ("'" +:+ type_name h v +:+ "' object is not subscriptable"))
      end
  | _ => Raise (Exn TypeError ("'" +:+ type_name h v +:+ "' object is not subscriptable"))
  end.

Definition getitem_int (v : val) (i : nat) (h : heap) : result val :=
  match v with
  | VStr s =>
      match String.get i s with
      | Some c => Ok (VStr (String c EmptyString))
      | None => Raise (Exn IndexError "string index out of range")
      end
  | VRef l =>
      match h !! l with
      | Some (ODict _) => Raise (Exn KeyError (pretty i))
      | Some (OList xs) =>
          match xs !! i with
          | Some x => Ok x
          | None => Raise (Exn IndexError "list index out of range")
          end
      | None =>
          Raise (Exn TypeError ("'" +:+ type_name h v +:+ "' object is not subscriptable"))
      end
  | _ => Raise (Exn TypeError ("'" +:+ type_name h v +:+ "' object is not subscriptable"))
  end.

Definition py_len (v : val) (h : heap) : result nat :=
  match v with
  | VStr s => Ok (String.length s)
  | VRef l =>
      match h !! l with
      | Some (ODict m) => Ok (size m)
      | Some (OList xs) => Ok (length xs)
      | None =>
          Raise (Exn TypeError ("object of type '" +:+ type_name h v +:+ "' has no len()"))
      end
  | _ => Raise (Exn TypeError ("object of type '" +:+ type_name h v +:+ "' has no len()"))
  end.

Definition py_get (v : val) (key : string) (dflt : val) (h : heap) : result val :=
  match v with
  | VRef l =>
      match h !! l with
      | Some (ODict m) => Ok (default dflt (m !! key))
      | _ => Raise (Exn AttributeError
                      ("'" +:+ type_name h v +:+ "' object has no attribute 'get'"))
      end
  | _ => Raise (Exn AttributeError
                  ("'" +:+ type_name h v +:+ "' object has no attribute 'get'"))
  end.

Fixpoint chars (s : string) : list val :=
  match s with
  | EmptyString => []
  | String c s' => VStr (String c EmptyString) :: chars s'
  end.

(** A loop over items fixed beforehand (the characters of a str, the keys
    of a dict). *)
Fixpoint for_items (items : list val) (body : val → M unit) : M unit :=
  match items with
  | [] => mret tt
  | x :: rest => _ ← body x; for_items rest body
  end.

(** The loop over a list object, as its iterator runs it: at each step the
    element at the next index is read from the store, and the loop ends
    when there is none. The body of the source does not write the list it
    runs over, so [steps] is its length. *)
Fixpoint for_list (steps : nat) (l : loc) (i : nat) (body : val → M unit) : M unit :=
  match steps with
  | 0 => mret tt
  | S steps' => fun h =>
      match h !! l with
      | Some (OList xs) =>
          match xs !! i with
          | Some x => (_ ← body x; for_list steps' l (S i) body) h
          | None => (Ok tt, h)
          end
      | _ => (Ok tt, h)
      end
  end.

(** [for x in v: body x]. *)
Definition for_each (v : val) (body : val → M unit) : M unit := fun h =>
  match v with
  | VStr s => for_items (chars s) body h
  | VRef l =>
      match h !! l with
      | Some (OList xs) => for_list (length xs) l 0 body h
      | Some (ODict m) => for_items (VStr <$> (map_to_list m).*1) body h
      | None => (Raise (Exn TypeError
                          ("'" +:+ type_name h v +:+ "' object is not iterable")), h)
      end
  | _ => (Raise (Exn TypeError ("'" +:+ type_name h v +:+ "' object is not iterable")), h)
  end.

(** The dict a record refers to. *)
Definition record_dict (h : heap) (v : val) : result (gmap string val) :=
  match v with
  | VRef l =>
      match h !! l with
      | Some (ODict m) => Ok m
      | _ => Raise (Exn TypeError "not a dict")
      end
  | _ => Raise (Exn TypeError "not a dict")
  end.

Fixpoint record_dicts (h : heap) (vs : list val) : result (list (gmap string val)) :=
  match vs with
  | [] => Ok []
  | v :: rest =>
      m ← record_dict h v;
      ms ← record_dicts h rest;
      mret (m :: ms)
  end.

(** [pd.DataFrame(records)]: the dicts of the list are read, and their
    values become the cells. *)
Definition DataFrame_of_records (records : val) (h : heap) : result DataFrame :=
  match records with
  | VRef l =>
      match h !! l with
      | Some (OList xs) =>
          ms ← record_dicts h xs;
          mret {| columns := match ms with [] => [] | _ :: _ => record_columns end;
                  rows := ms |}
      | _ => Raise (Exn TypeError "not a list")
      end
  | _ => Raise (Exn TypeError "not a list")
  end.

Definition DataFrame_of_columns (cols : list string) : DataFrame :=
  {| columns := cols; rows := [] |}.

Section Normalizer.
(** [pd.to_datetime(x, unit="ms", errors="coerce")]: a call into the
    library, which reads its argument in the store and returns a value
    that cannot be written, or raises. *)
Variable to_datetime_ms : heap → val → result timeval.

Definition process_feature (records feature : val) : M unit :=
  d ← alloc (ODict ∅);
  properties ← observe (py_get feature "properties" d);
  d ← alloc (ODict ∅);
  geometry ← observe (py_get feature "geometry" d);
  d ← alloc (OList [VNone; VNone; VNone]);
  coordinates ← observe (py_get geometry "coordinates" d);
  r_place ← observe (py_get properties "place" VNone);
  r_magnitude ← observe (py_get properties "mag" VNone);
  t ← observe (py_get properties "time" VNone);
  r_time ← observe (fun h => to_datetime_ms h t);
  r_longitude ← observe (getitem_int coordinates 0);
  r_latitude ← observe (getitem_int coordinates 1);
  r_depth_km ← observe (getitem_int coordinates 2);
  r_tsunami_flag ← observe (py_get properties "tsunami" VNone);
  r_felt_reports ← observe (py_get properties "felt" VNone);
  record ← alloc (ODict (list_to_map
              [("place", r_place); ("magnitude", r_magnitude);
               ("time", VTime r_time); ("longitude", r_longitude);
               ("latitude", r_latitude); ("depth_km", r_depth_km);
               ("tsunami_flag", r_tsunami_flag); ("felt_reports", r_felt_reports)]));
  list_append records record.

Definition process_earthquake_data (data : val) : M DataFrame :=
  t ← observe (fun h => Ok (truthy h data));
  if negb t then mret (DataFrame_of_columns record_columns) else
  has ← observe (py_contains data "features");
  if negb has then mret (DataFrame_of_columns record_columns) else
  fs ← observe (getitem_str data "features");
  n ← observe (py_len fs);
  if n =? 0 then mret (DataFrame_of_columns record_columns) else
  records ← alloc (OList []);
  fs ← observe (getitem_str data "features");
  _ ← for_each fs (process_feature records);
  observe (DataFrame_of_records records).

End Normalizer.

(** The conversion of the time when it is a scalar of the store, by
    [pandas_plain]; a reference is refused as a mapping is. *)
Definition to_datetime_plain (h : heap) (v : val) : result timeval :=
  match v with
  | VNone => to_datetime_ms (pd := pandas_plain) JNull
  | VBool b => to_datetime_ms (pd := pandas_plain) (JBool b)
  | VInt n => to_datetime_ms (pd := pandas_plain) (JInt n)
  | VFloat f => to_datetime_ms (pd := pandas_plain) (JFloat f)
  | VStr s => to_datetime_ms (pd := pandas_plain) (JStr s)
  | VTime t => Ok t
  | VRef _ => to_datetime_ms (pd := pandas_plain) (JObj ∅)
  end.

End Store.

(** The vocabulary of the claims about the store. *)
Module StoreSpec.
Import Store.

(** A value of the store [h]: a scalar, or a reference to one of the
    objects of [h]. *)
Definition in_store (h : heap) (v : val) : Prop :=
  match v with
  | VRef l => l < length h
  | _ => True
  end.

Definition obj_Forall (P : val → Prop) (o : obj) : Prop :=
  match o with
  | ODict m => map_Forall (λ _, P) m
  | OList xs => Forall P xs
  end.

#[global] Instance in_store_dec (h : heap) (v : val) : Decision (in_store h v).
Proof. destruct v; cbn; apply _. Defined.

#[global] Instance obj_Forall_dec (P : val → Prop) `{∀ v, Decision (P v)} (o : obj) :
  Decision (obj_Forall P o).
Proof. destruct o; cbn; apply _. Defined.







(** The value under [key] of the dict that [v] refers to, when [v] refers
    to a dict with that key. *)
Definition field (h : heap) (v : val) (key : string) : option val :=
  match v with
  | VRef l =>
      match h !! l with
      | Some (ODict m) => m !! key
      | _ => None
      end
  | _ => None
  end.

(** The value of [properties.<key>] of a feature of the store, [None]
    when [properties] or the key is missing. *)
Definition properties_field (h : heap) (feature : val) (key : string) : val :=
  default VNone (field h feature "properties" ≫= λ p, field h p key).

(** The value under [geometry.coordinates] of a feature of the store,
    when both keys are there. *)
Definition coordinates_of (h : heap) (feature : val) : option val :=
  field h feature "geometry" ≫= λ g, field h g "coordinates".

(** Position [i] of [geometry.coordinates], [None] when a key is
    missing. *)
Definition coordinate_of (h : heap) (feature : val) (i : nat) : val :=
  match coordinates_of h feature with
  | Some c =>
      match getitem_int c i h with
      | Ok x => x
      | Raise _ => VNone
      end
  | None => VNone
  end.

(** The record of a feature of the store [h] whose time converts to [t]:
    under each key the value that the store holds for the field, a
    reference where the store holds a reference. *)
Definition row_of (h : heap) (feature : val) (t : timeval) : gmap string val :=
  list_to_map
    [("place", properties_field h feature "place");
     ("magnitude", properties_field h feature "mag");
     ("time", VTime t);
     ("longitude", coordinate_of h feature 0);
     ("latitude", coordinate_of h feature 1);
     ("depth_km", coordinate_of h feature 2);
     ("tsunami_flag", properties_field h feature "tsunami");
     ("felt_reports", properties_field h feature "felt")].







(** A computation that leaves the object [o] at [l] as it is. *)
Definition keeps {A : Type} (l : loc) (o : obj) (m : M A) : Prop :=
  ∀ h, h !! l = Some o → (m h).2 !! l = Some o.



(** The store of a payload with one feature, whose [place] is a list of
    two names: the list, the properties, the feature, the sequence of
    features, the payload. *)
Definition store_place_list : heap :=
  [ OList [VStr "Honshu"; VStr "Japan"];
    ODict {[ "place" := VRef 0 ]};
    ODict {[ "properties" := VRef 1 ]};
    OList [VRef 2];
    ODict {[ "features" := VRef 3 ]} ].

(** The store of the payload of [sample_feature], twice in the sequence:
    the coordinates, the geometry, the properties, the feature, the
    sequence of features, the payload. *)
Definition store_sample : heap :=
  [ OList [VFloat (-122.4); VFloat 37.8; VFloat 10.5];
    ODict {[ "coordinates" := VRef 0 ]};
    ODict {[ "place" := VStr "10km N of Test"; "mag" := VFloat 4.5;
             "time" := VInt 1700000000000; "tsunami" := VInt 0; "felt" := VInt 12 ]};
    ODict {[ "properties" := VRef 2; "geometry" := VRef 1 ]};
    OList [VRef 3; VRef 3];
    ODict {[ "features" := VRef 4 ]} ].

(** The frame of [store_place_list]: one row, whose [place] is the
    reference to the list of the payload. *)
Definition frame_place_list : DataFrame :=
  {| columns := record_columns;
     rows := [ list_to_map
                 [("place", VRef 0); ("magnitude", VNone); ("time", VTime TNone);
                  ("longitude", VNone); ("latitude", VNone); ("depth_km", VNone);
                  ("tsunami_flag", VNone); ("felt_reports", VNone)] ] |}.

End StoreSpec.

(** ** The caller: the script fetches, then normalises *)

Section Pipeline.
Context {pd : Pandas}.
Variable net : Request → result Response.

(** Lines 133 and 134 of the script: [raw_data] is what the fetcher
    returns and [df] what the normaliser makes of it. The script has no
    handler around the two calls: an exception of the normaliser leaves
    it. *)
Definition fetch_and_process (min_magnitude : float) (limit : Z) : IO DataFrame :=
  raw_data ← fetch_earthquake_data net min_magnitude limit;
  io_lift (process_earthquake_data raw_data).

End Pipeline.

(** A value that is a mapping (a dict). *)
Definition is_mapping (v : json) : bool :=
  match v with
  | JObj _ => true
  | _ => false
  end.


(** An answer with status 200 and the given decoded body. *)
Definition ok_response (body_text : string) (body : option json) : Response :=
  {| status_code := 200; reason := "OK";
     resp_url := "https://earthquake.usgs.gov/fdsnws/event/1/query";
     text := body_text; json_body := body |}.

(** An answer with status 404 whose body would pass every other check. *)
Definition not_found_response : Response :=
  {| status_code := 404; reason := "Not Found";
     resp_url := "https://earthquake.usgs.gov/fdsnws/event/1/query";
     text := "{}"; json_body := Some (payload_of [sample_feature]) |}.

(** The record of [sample_feature]. *)
Definition sample_record : EventRecord :=
  {| place := JStr "10km N of Test"; magnitude := JFloat 4.5;
     time := Timestamp 1700000000000000000;
     longitude := JFloat (-122.4); latitude := JFloat 37.8;
     depth_km := JFloat 10.5; tsunami_flag := JInt 0; felt_reports := JInt 12 |}.

(** The mapping of a payload with the given features. *)
Definition payload_map (features : list json) : gmap string json :=
  {[ "features" := JArr features ]}.

(** A network that always answers [r], one that always raises [e]. *)
Definition answers (r : Response) : Request → result Response := λ _, Ok r.
Definition fails (e : exn) : Request → result Response := λ _, Raise e.

(** * Properties of the fetcher *)

Section StripFacts.

Lemma blank_rev_app (s1 s2 : string) :
  blank (String.rev_app s1 s2) = blank s1 && blank s2.
Proof.
  revert s2. induction s1 as [|c s1 IH]; intros s2; cbn [String.rev_app blank]; [done|].
  rewrite IH. cbn [blank]. destruct (isspace c), (blank s1); done.
Qed.

Lemma blank_rev (s : string) : blank (String.rev s) = blank s.
Proof. unfold String.rev. rewrite blank_rev_app. cbn [blank]. by rewrite andb_true_r. Qed.

Lemma blank_lstrip (s : string) : blank (lstrip s) = blank s.
Proof.
  induction s as [|c s IH]; cbn [lstrip blank]; [done|].
  destruct (isspace c) eqn:Hc; cbn [andb blank]; [done|]. by rewrite Hc.
Qed.

Lemma lstrip_empty (s : string) : String.length (lstrip s) = 0 ↔ blank s = true.
Proof.
  induction s as [|c s IH]; cbn [lstrip blank]; [done|].
  destruct (isspace c) eqn:Hc; cbn [andb String.length]; [done|]. done.
Qed.

Lemma length_rev_app (s1 s2 : string) :
  String.length (String.rev_app s1 s2) = String.length s1 + String.length s2.
Proof.
  revert s2. induction s1 as [|c s1 IH]; intros s2; cbn [String.rev_app String.length]; [done|].
  rewrite IH. cbn [String.length]. lia.
Qed.

(** Trimming leaves nothing exactly when every character is white space. *)
Lemma strip_empty (s : string) : String.length (strip s) = 0 ↔ blank s = true.
Proof.
  unfold strip, String.rev at 1. rewrite length_rev_app. cbn [String.length].
  rewrite Nat.add_0_r, lstrip_empty, blank_rev, blank_lstrip. done.
Qed.

Lemma truthy_strip (s : string) : negb (truthy (JStr (strip s))) = blank s.
Proof.
  cbn [truthy]. rewrite negb_involutive.
  destruct (blank s) eqn:Hb.
  - apply Nat.eqb_eq, strip_empty, Hb.
  - apply Nat.eqb_neq. rewrite strip_empty. congruence.
Qed.

End StripFacts.

(** One step of a computation in [IO]: the binds and the primitive
    actions are unfolded. *)
Ltac io_step :=
  unfold mbind, mret, IO_bind, IO_ret, io_raise, io_lift, st_error; cbn beta iota.

Section FetcherFacts.
Variable net : Request → result Response.

(** The fetcher, as a function of what the network answers: the request
    is sent, and the outcome is the one of [validate]. *)
Lemma fetch_refines_validate (min_magnitude : float) (limit : Z) (w : World) :
  fetch_earthquake_data net min_magnitude limit w =
  let rq := catalog_request min_magnitude limit in
  match validate (net rq) with
  | inl f => (Ok empty_payload,
              {| sent := sent w ++ [rq]; shown := shown w ++ [diagnostic f] |})
  | inr data => (Ok data, {| sent := sent w ++ [rq]; shown := shown w |})
  end.
Proof.
  unfold fetch_earthquake_data, try_except, requests_get, catalog_request.
  io_step. cbn zeta.
  destruct (net _) as [r|e]; cbn [validate].
  - unfold raise_for_status.
    destruct ((400 <=? status_code r)%Z && (status_code r <? 500)%Z); [reflexivity|].
    destruct ((500 <=? status_code r)%Z && (status_code r <? 600)%Z); [reflexivity|].
    io_step. rewrite truthy_strip.
    destruct (blank (text r)); [reflexivity|].
    unfold response_json. destruct (json_body r) as [data|]; [|reflexivity].
    io_step.
    destruct data as [|b|n|f|s|l|m]; try reflexivity.
    + cbn [py_contains]. destruct (occurs_in "features" s); reflexivity.
    + cbn [py_contains]. destruct (existsb (eq_str "features") l); reflexivity.
    + cbn [py_contains]. destruct (m !! "features") eqn:Hm.
      * rewrite bool_decide_eq_true_2 by eauto. reflexivity.
      * rewrite bool_decide_eq_false_2 by (intros [? ?]; congruence). reflexivity.
  - destruct e as [c msg]. destruct c; reflexivity.
Qed.

(** The fetcher never raises to its caller. *)
Lemma fetch_never_raises (min_magnitude : float) (limit : Z) (w : World) :
  returns (fetch_earthquake_data net min_magnitude limit w).1.
Proof.
  rewrite fetch_refines_validate. cbn zeta.
  destruct (validate _); eexists; reflexivity.
Qed.

(** When the decoded body is a mapping, the payload returned has the key
    [features]. *)
Lemma fetch_mapping_has_features (min_magnitude : float) (limit : Z) (w : World)
      (m : gmap string json) :
  (fetch_earthquake_data net min_magnitude limit w).1 = Ok (JObj m) →
  has_features (JObj m) = true.
Proof.
  rewrite fetch_refines_validate. cbn zeta.
  destruct (validate _) as [f|data] eqn:Hv; cbn [fst].
  - intros [= <-]. reflexivity.
  - intros [= ->]. unfold validate in Hv.
    repeat case_match; simplify_eq; cbn; by rewrite bool_decide_eq_true_2 by eauto.
Qed.

(** On every failure of the fetcher's own checks (of the transport, the
    status, an empty body, a body that is not JSON, a body in which the
    test [in] does not find [features], or anything else) the fetcher
    shows one diagnostic, the one of the kind of the failure, and returns
    the canonical empty payload; when its checks pass it returns the
    decoded body and shows nothing. *)
Lemma fetch_one_diagnostic_per_check
        (min_magnitude : float) (limit : Z) (w : World) :
  let out := fetch_earthquake_data net min_magnitude limit w in
  match validate (net (catalog_request min_magnitude limit)) with
  | inl f => out.1 = Ok empty_payload ∧ shown out.2 = shown w ++ [diagnostic f]
  | inr data => out.1 = Ok data ∧ shown out.2 = shown w
  end.
Proof.
  cbn zeta. rewrite fetch_refines_validate. cbn zeta.
  destruct (validate _); split; reflexivity.
Qed.

(** C8. Each call sends one request and no more, whatever the outcome:
    a GET of the catalog endpoint with [format=geojson], [orderby=time],
    [minmagnitude] and [limit] from the filter, and a timeout of 10. *)
Theorem fetch_sends_one_request (min_magnitude : float) (limit : Z) (w : World) :
  sent (fetch_earthquake_data net min_magnitude limit w).2 =
  sent w ++ [ {| req_method := "GET";
                 req_url := "https://earthquake.usgs.gov/fdsnws/event/1/query";
                 req_params := [("format", JStr "geojson"); ("orderby", JStr "time");
                                ("minmagnitude", JFloat min_magnitude);
                                ("limit", JInt limit)];
                 req_timeout := 10 |} ].
Proof.
  rewrite fetch_refines_validate. cbn zeta.
  destruct (validate _); reflexivity.
Qed.

End FetcherFacts.

(** ** The fetcher on sample answers of the network *)

(** C1. The check of the structure is [in], which on a list looks for an
    element: for the valid filter (2.5, 100), when the service answers 200
    with the JSON array [["features"]], the fetcher takes the success
    branch and returns that list. The payload returned is not a mapping
    and has no [features] key, no diagnostic is shown, and the normaliser
    raises a TypeError on it. *)
Theorem fetch_returns_list_without_features_key :
  let out := fetch_earthquake_data (λ _, Ok list_body_response) 2.5 100 fresh_world in
  valid_filter 2.5 100 ∧
  out.1 = Ok (JArr [JStr "features"]) ∧
  shown out.2 = [] ∧
  has_features (JArr [JStr "features"]) = false ∧
  process_earthquake_data (pd := pandas_plain) (JArr [JStr "features"]) =
  Raise (Exn TypeError "list indices must be integers or slices, not str").
Proof. repeat split; try reflexivity. set_solver. Qed.

(** The scenario of the timeout: the canonical empty payload and the
    diagnostic of a timeout, once. *)
Example fetch_timeout :
  fetch_earthquake_data (λ _, Raise (Exn ReadTimeout "Read timed out.")) 2.5 100 fresh_world
  = (Ok empty_payload,
     {| sent := [catalog_request 2.5 100];
        shown := ["Request timed out while contacting the earthquake API."] |}).
Proof. reflexivity. Qed.

(** The scenario of the malformed body: status 200 and a body that is not
    JSON. *)
Example fetch_malformed_body :
  fetch_earthquake_data
    (λ _, Ok {| status_code := 200; reason := "OK"; resp_url := "";
                text := "<html>"; json_body := None |}) 2.5 100 fresh_world
  = (Ok empty_payload,
     {| sent := [catalog_request 2.5 100];
        shown := ["Failed to decode API response as JSON."] |}).
Proof. reflexivity. Qed.

(** A status of 503, an empty body, a body without [features] and a body
    that is a number: the four other kinds of failure. *)
Example validate_failures :
  validate (Ok {| status_code := 503; reason := "Service Unavailable"; resp_url := "u";
                  text := ""; json_body := None |})
  = inl (HttpStatusError "503 Server Error: Service Unavailable for url: u") ∧
  validate (Ok {| status_code := 200; reason := "OK"; resp_url := "u";
                  text := "  "; json_body := None |})
  = inl EmptyResponseError ∧
  validate (Ok {| status_code := 200; reason := "OK"; resp_url := "u";
                  text := "{}"; json_body := Some (JObj ∅) |})
  = inl UnexpectedStructureError ∧
  validate (Ok {| status_code := 200; reason := "OK"; resp_url := "u";
                  text := "5"; json_body := Some (JInt 5) |})
  = inl (UnknownError "argument of type 'int' is not iterable").
Proof. repeat split; reflexivity. Qed.

(** * Properties of the normaliser *)

(** One step of a computation in [result]. *)
Ltac res_step := unfold mbind, mret, result_bind, result_ret; cbn beta iota.

(** Runs the body of the loop on a feature whose lookups are known. *)
Ltac run_feature :=
  repeat first
    [ progress cbn [default from_option id py_get]
    | progress res_step
    | match goal with H : _ !! _ = _ |- _ => rewrite H end
    | match goal with H : to_datetime_ms _ = _ |- _ => rewrite H end ].

Section NormalizerFacts.
Context {pd : Pandas}.

Lemma to_datetime_scalar (v : json) :
  scalar v = true → returns (to_datetime_ms v).
Proof.
  destruct v; cbn; try done; by eexists.
Qed.

(** A sequence of three elements or more, opened. *)
Lemma three_or_more (c : list json) :
  (3 <=? length c) = true → ∃ x y z rest, c = x :: y :: z :: rest.
Proof.
  destruct c as [|x [|y [|z rest]]]; cbn; try done. eauto.
Qed.

(** A well-formed feature yields the record of section 4.2. *)
Lemma process_feature_well_formed (feature : json) :
  well_formed_feature feature = true →
  ∃ r, process_feature feature = Ok r ∧ record_matches feature r.
Proof.
  destruct feature as [| | | | | |fm]; try done.
  unfold well_formed_feature, process_feature, record_matches,
    prop_field, coordinate, geometry_coordinates.
  intros [Hp Hg]%andb_true_iff.
  assert (∃ t, to_datetime_ms (prop_field (JObj fm) "time") = Ok t) as [t Ht].
  { unfold prop_field.
    destruct (fm !! "properties") as [[| | | | | |p]|]; try done;
      [by apply to_datetime_scalar | by eexists]. }
  unfold prop_field in Ht.
  destruct (fm !! "properties") as [[| | | | | |p]|] eqn:HP; try done;
  (destruct (fm !! "geometry") as [[| | | | | |g]|] eqn:HG; try done;
   [destruct (g !! "coordinates") as [[| | | | |c|]|] eqn:HC; try done;
    [apply three_or_more in Hg as (x & y & z & rest & ->)|]|]);
  run_feature; (eexists; split; [reflexivity|]); repeat split; done.
Qed.

(** The loop appends the records of the features, in their order. *)
Lemma for_features_all (features : list json) (records news : list EventRecord) :
  Forall2 (λ f r, process_feature f = Ok r) features news →
  for_features features records = Ok (records ++ news).
Proof.
  intros H. revert records.
  induction H as [|f r fs rs Hf _ IH]; intros records; cbn [for_features].
  - by rewrite app_nil_r.
  - rewrite Hf. res_step. rewrite IH, <- app_assoc. done.
Qed.

(** Well-formed features all have a record. *)
Lemma well_formed_records (features : list json) :
  Forall (λ f, well_formed_feature f = true) features →
  ∃ records,
    Forall2 (λ f r, process_feature f = Ok r) features records ∧
    Forall2 record_matches features records.
Proof.
  induction 1 as [|f fs Hf _ (rs & IH1 & IH2)].
  - exists []. split; constructor.
  - destruct (process_feature_well_formed f Hf) as (r & Hr & Hm).
    exists (r :: rs). split; by constructor.
Qed.

(** The frame of a mapping whose [features] is a non-empty list, once
    the loop has returned. *)
Lemma process_features_list (m : gmap string json) (f : json) (fs : list json)
      (records : list EventRecord) :
  m !! "features" = Some (JArr (f :: fs)) →
  for_features (f :: fs) [] = Ok records →
  process_earthquake_data (JObj m) = Ok (DataFrame_of_records records).
Proof.
  intros Hm Hloop. unfold process_earthquake_data.
  assert (truthy (JObj m) = true) as ->.
  { cbn. apply negb_true_iff, Nat.eqb_neq. intros Hs.
    apply map_size_empty_inv in Hs. subst. by rewrite lookup_empty in Hm. }
  cbn [negb py_contains]. res_step.
  rewrite bool_decide_eq_true_2 by (rewrite Hm; eauto).
  cbn [negb getitem_str]. rewrite Hm. cbn [py_len py_iter length Nat.eqb].
  rewrite Hloop. reflexivity.
Qed.

(** A payload that tests false, or a mapping without [features] or with
    an empty sequence there, gives the frame with the eight columns and
    no row. *)
Lemma process_empty (data : json) :
  truthy data = false ∨
  (∃ m, data = JObj m ∧ (m !! "features" = None ∨ m !! "features" = Some (JArr []))) →
  process_earthquake_data data = Ok (DataFrame_of_columns record_columns).
Proof.
  unfold process_earthquake_data.
  intros [->|(m & -> & Hm)]; [done|].
  destruct (truthy (JObj m)); [|done]. cbn [negb py_contains]. res_step.
  destruct Hm as [Hm|Hm].
  - rewrite bool_decide_eq_false_2 by (rewrite Hm; by intros [? ?]). done.
  - rewrite bool_decide_eq_true_2 by (rewrite Hm; eauto).
    cbn [negb getitem_str]. rewrite Hm. done.
Qed.

(** The normaliser on a mapping whose [features] is a sequence of
    well-formed features: the frame whose rows are their records. *)
Lemma process_well_formed (m : gmap string json) (fs : list json) :
  m !! "features" = Some (JArr fs) →
  Forall (λ f, well_formed_feature f = true) fs →
  ∃ df, process_earthquake_data (JObj m) = Ok df ∧
        Forall2 (λ f r, process_feature f = Ok r) fs (rows df) ∧
        Forall2 record_matches fs (rows df).
Proof.
  intros Hm Hwf. destruct fs as [|f fs].
  - exists (DataFrame_of_columns record_columns). split; [|split; constructor].
    apply process_empty. right. eauto.
  - destruct (well_formed_records _ Hwf) as (records & Hrun & Hrec).
    exists (DataFrame_of_records records). split; [|done].
    apply process_features_list with f fs; [done|].
    by apply (for_features_all _ []).
Qed.

(** Two records of one feature are the same record. *)
Lemma record_matches_agree (f f' : json) (r r' : EventRecord) :
  record_matches f r → record_matches f' r' →
  (∀ key, prop_field f key = prop_field f' key) →
  (∀ i, i < 3 → coordinate f i = coordinate f' i) →
  r = r'.
Proof.
  intros (H1 & H2 & H3 & H4 & H5 & H6 & H7 & H8)
         (H1' & H2' & H3' & H4' & H5' & H6' & H7' & H8') Hp Hc.
  destruct r, r'; cbn in *. rewrite Hp in H3.
  rewrite !Hp in *. rewrite !Hc in * by lia.
  assert (time0 = time1) by congruence.
  congruence.
Qed.

(** C5. A payload that is null, that lacks the [features] key, or whose
    [features] sequence is empty gives a frame with no row and the eight
    columns place, magnitude, time, longitude, latitude, depth_km,
    tsunami_flag, felt_reports. *)
Theorem process_empty_keeps_schema (data : json) :
  data = JNull ∨
  (∃ m, data = JObj m ∧ (m !! "features" = None ∨ m !! "features" = Some (JArr []))) →
  ∃ df, process_earthquake_data data = Ok df ∧
        rows df = [] ∧
        columns df = ["place"; "magnitude"; "time"; "longitude"; "latitude";
                      "depth_km"; "tsunami_flag"; "felt_reports"].
Proof.
  intros H. exists (DataFrame_of_columns record_columns).
  split; [|done]. apply process_empty.
  destruct H as [->|H]; [by left | by right].
Qed.

(** C3. A payload whose [features] is a sequence of N well-formed
    features gives N records, and the record at each position is the one
    of the feature at that position. *)
Theorem process_one_record_per_feature (m : gmap string json) (fs : list json) :
  m !! "features" = Some (JArr fs) →
  Forall (λ f, well_formed_feature f = true) fs →
  ∃ df, process_earthquake_data (JObj m) = Ok df ∧
        length (rows df) = length fs ∧
        ∀ i f, fs !! i = Some f →
               ∃ r, rows df !! i = Some r ∧
                    process_feature f = Ok r ∧ record_matches f r.
Proof.
  intros Hm Hwf.
  destruct (process_well_formed m fs Hm Hwf) as (df & Hdf & Hrun & Hrec).
  exists df. split; [done|]. split.
  - symmetry. by eapply Forall2_length.
  - intros i f Hi.
    destruct (Forall2_lookup_l _ _ _ _ _ Hrun Hi) as (r & Hr & Hfr).
    destruct (Forall2_lookup_l _ _ _ _ _ Hrec Hi) as (r' & Hr' & Hm').
    exists r. by simplify_eq.
Qed.

(** C2, as amended. The normaliser returns on every admissible payload:
    one that tests false, a mapping without [features], a mapping whose
    [features] is a sequence of well-formed features. Each row then
    holds the fields of its feature, a missing one being absent. *)
Theorem process_total_on_admissible (data : json) :
  admissible data →
  ∃ df, process_earthquake_data data = Ok df ∧
        Forall2 record_matches (features_of data) (rows df).
Proof.
  intros [Hf|(m & -> & [Hm|(fs & Hm & Hwf)])].
  - exists (DataFrame_of_columns record_columns). split.
    + apply process_empty. by left.
    + assert (features_of data = []) as ->; [|constructor].
      destruct data as [| | | | | |m]; try done. cbn in Hf.
      apply negb_false_iff, Nat.eqb_eq, map_size_empty_inv in Hf as ->.
      unfold features_of. by rewrite lookup_empty.
  - exists (DataFrame_of_columns record_columns). split.
    + apply process_empty. right. eauto.
    + unfold features_of. rewrite Hm. constructor.
  - destruct (process_well_formed m fs Hm Hwf) as (df & Hdf & _ & Hrec).
    exists df. split; [done|]. unfold features_of. by rewrite Hm.
Qed.

(** C9. When [geometry.coordinates] is a sequence of three elements or
    more, the record takes its positions 0, 1 and 2 as longitude,
    latitude and depth, and what comes after the third changes nothing:
    the feature cut to three coordinates has the same record. *)
Theorem coordinates_beyond_third_ignored
        (fm g : gmap string json) (x y z : json) (rest : list json) :
  fm !! "geometry" = Some (JObj g) →
  g !! "coordinates" = Some (JArr (x :: y :: z :: rest)) →
  well_formed_feature (JObj fm) = true →
  ∃ r, process_feature (JObj fm) = Ok r ∧
       longitude r = x ∧ latitude r = y ∧ depth_km r = z ∧
       process_feature
         (JObj (<["geometry" := JObj (<["coordinates" := JArr [x; y; z]]> g)]> fm))
       = Ok r.
Proof.
  intros HG HC Hwf.
  destruct (process_feature_well_formed _ Hwf) as (r & Hr & Hm).
  exists r. split; [done|].
  assert (∀ i, i < 3 →
            coordinate (JObj (<["geometry" :=
                                JObj (<["coordinates" := JArr [x; y; z]]> g)]> fm)) i
            = coordinate (JObj fm) i) as Hcoord.
  { intros i Hi. unfold coordinate, geometry_coordinates.
    rewrite !lookup_insert_eq, HG, HC.
    destruct i as [|[|[|i]]]; try done. lia. }
  assert (∀ key,
            prop_field (JObj (<["geometry" :=
                                JObj (<["coordinates" := JArr [x; y; z]]> g)]> fm)) key
            = prop_field (JObj fm) key) as Hprop.
  { intros key. unfold prop_field. by rewrite lookup_insert_ne. }
  assert (well_formed_feature
            (JObj (<["geometry" := JObj (<["coordinates" := JArr [x; y; z]]> g)]> fm))
          = true) as Hwf'.
  { unfold well_formed_feature in *.
    rewrite lookup_insert_ne by done. rewrite !lookup_insert_eq.
    apply andb_true_iff in Hwf as [-> _]. done. }
  destruct (process_feature_well_formed _ Hwf') as (r' & Hr' & Hm').
  assert (r' = r) as ->.
  { eapply record_matches_agree; [exact Hm'|exact Hm|done|done]. }
  destruct Hm as (_ & _ & _ & H4 & H5 & H6 & _).
  unfold coordinate, geometry_coordinates in H4, H5, H6.
  rewrite HG, HC in H4, H5, H6. done.
Qed.

End NormalizerFacts.

(** ** The normaliser on the sample data *)

(** The scenario of the single well-formed feature. *)
Example process_sample_feature :
  process_earthquake_data (pd := pandas_plain) (payload_of [sample_feature]) =
  Ok {| columns := record_columns;
        rows := [ {| place := JStr "10km N of Test"; magnitude := JFloat 4.5;
                     time := Timestamp 1700000000000000000;
                     longitude := JFloat (-122.4); latitude := JFloat 37.8;
                     depth_km := JFloat 10.5; tsunami_flag := JInt 0;
                     felt_reports := JInt 12 |} ] |}.
Proof. reflexivity. Qed.

(** The scenario of the missing geometry. *)
Example process_feature_without_geometry :
  process_feature (pd := pandas_plain) feature_without_geometry =
  Ok {| place := JStr "Off the coast"; magnitude := JFloat 5.1; time := TNone;
        longitude := JNull; latitude := JNull; depth_km := JNull;
        tsunami_flag := JNull; felt_reports := JNull |}.
Proof. reflexivity. Qed.

(** A two-element [coordinates] raises whatever [Pandas] is: the
    conversion of the time is not reached with anything but [None]. *)
Lemma short_coordinates_raise_for_any_pandas (pd : Pandas) :
  process_earthquake_data (payload_of [sample_feature; feature_two_coordinates]) =
  Raise (Exn IndexError "list index out of range").
Proof. reflexivity. Qed.

(** A [geometry] that is null, as GeoJSON allows, raises as well. *)
Lemma null_geometry_raises_for_any_pandas (pd : Pandas) :
  process_earthquake_data (payload_of [JObj {[ "geometry" := JNull ]}]) =
  Raise (Exn AttributeError "'NoneType' object has no attribute 'get'").
Proof. reflexivity. Qed.

(** A time that is the empty mapping raises whatever [Pandas] is. *)
Lemma mapping_time_raises_for_any_pandas (pd : Pandas) :
  raises (process_earthquake_data (payload_of [sample_feature; feature_mapping_time]))
         ValueError.
Proof. eexists. reflexivity. Qed.

(** Counterexample to C2 as stated: a feature whose [coordinates] has two
    elements makes the normaliser raise an IndexError, and the records of
    the features before it are lost with it. *)
Lemma process_two_coordinates_raises :
  process_earthquake_data (pd := pandas_plain)
    (payload_of [sample_feature; feature_two_coordinates]) =
  Raise (Exn IndexError "list index out of range").
Proof. reflexivity. Qed.

Lemma process_total_on_admissible_witness :
  admissible (payload_of [sample_feature; feature_without_geometry]) ∧
  ∃ df, process_earthquake_data (pd := pandas_plain)
          (payload_of [sample_feature; feature_without_geometry]) = Ok df ∧
        Forall2 (record_matches (H := pandas_plain))
                (features_of (payload_of [sample_feature; feature_without_geometry]))
                (rows df).
Proof.
  assert (admissible (payload_of [sample_feature; feature_without_geometry])) as H.
  { right. eexists. split; [reflexivity|]. right. eexists. split; [reflexivity|].
    repeat constructor. }
  split; [exact H|].
  exact (process_total_on_admissible (pd := pandas_plain) _ H).
Defined.

Lemma process_one_record_per_feature_witness :
  ({[ "features" := JArr [sample_feature; feature_without_geometry] ]} : gmap string json)
    !! "features" = Some (JArr [sample_feature; feature_without_geometry]) ∧
  Forall (λ f, well_formed_feature f = true) [sample_feature; feature_without_geometry] ∧
  ∃ df, process_earthquake_data (pd := pandas_plain)
          (payload_of [sample_feature; feature_without_geometry]) = Ok df ∧
        length (rows df) = 2 ∧
        ∀ i f, [sample_feature; feature_without_geometry] !! i = Some f →
               ∃ r, rows df !! i = Some r ∧
                    process_feature (pd := pandas_plain) f = Ok r ∧
                    record_matches (H := pandas_plain) f r.
Proof.
  assert (Forall (λ f, well_formed_feature f = true)
                 [sample_feature; feature_without_geometry]) as Hwf
    by repeat constructor.
  split; [reflexivity|]. split; [exact Hwf|].
  exact (process_one_record_per_feature (pd := pandas_plain)
           {[ "features" := JArr [sample_feature; feature_without_geometry] ]}
           [sample_feature; feature_without_geometry] eq_refl Hwf).
Defined.

Lemma process_empty_keeps_schema_witness :
  (empty_payload = JNull ∨
   ∃ m, empty_payload = JObj m ∧
        (m !! "features" = None ∨ m !! "features" = Some (JArr []))) ∧
  ∃ df, process_earthquake_data (pd := pandas_plain) empty_payload = Ok df ∧
        rows df = [] ∧
        columns df = ["place"; "magnitude"; "time"; "longitude"; "latitude";
                      "depth_km"; "tsunami_flag"; "felt_reports"].
Proof.
  assert (empty_payload = JNull ∨
          ∃ m, empty_payload = JObj m ∧
               (m !! "features" = None ∨ m !! "features" = Some (JArr []))) as H.
  { right. exists {[ "features" := JArr [] ]}. split; [reflexivity|].
    right. reflexivity. }
  split; [exact H|].
  exact (process_empty_keeps_schema (pd := pandas_plain) empty_payload H).
Defined.

Lemma coordinates_beyond_third_ignored_witness :
  well_formed_feature feature_four_coordinates = true ∧
  ∃ r, process_feature (pd := pandas_plain) feature_four_coordinates = Ok r ∧
       longitude r = JFloat 142.5 ∧ latitude r = JFloat 38.25 ∧
       depth_km r = JFloat 29.0 ∧
       process_feature (pd := pandas_plain)
         (JObj (<["geometry" :=
                   JObj (<["coordinates" := JArr [JFloat 142.5; JFloat 38.25; JFloat 29.0]]>
                           {[ "coordinates" :=
                                JArr [JFloat 142.5; JFloat 38.25; JFloat 29.0;
                                      JStr "extra"] ]})]>
                 {[ "geometry" :=
                      JObj {[ "coordinates" :=
                                JArr [JFloat 142.5; JFloat 38.25; JFloat 29.0;
                                      JStr "extra"] ]} ]}))
       = Ok r.
Proof.
  split; [reflexivity|].
  apply (coordinates_beyond_third_ignored (pd := pandas_plain)
           {[ "geometry" :=
                JObj {[ "coordinates" :=
                          JArr [JFloat 142.5; JFloat 38.25; JFloat 29.0; JStr "extra"] ]} ]}
           {[ "coordinates" :=
                JArr [JFloat 142.5; JFloat 38.25; JFloat 29.0; JStr "extra"] ]}
           (JFloat 142.5) (JFloat 38.25) (JFloat 29.0) [JStr "extra"]);
    reflexivity.
Defined.

(** Counterexample to C7 as stated: a [time] that is the empty mapping is
    not a number, and it is not coerced to an absent time: the conversion
    raises a ValueError, which ends the normalisation of the whole
    batch. *)
Lemma process_mapping_time_raises :
  process_earthquake_data (pd := pandas_plain)
    (payload_of [sample_feature; feature_mapping_time]) =
  Raise (Exn ValueError
           ("to assemble mappings requires at least that [year, month, day] be specified: "
            +:+ "[day,month,year] is missing")).
Proof. reflexivity. Qed.

(** The three times of the batch above: the timestamp of 1700000000000
    ms, [None] for the missing time, [NaT] for the text. *)
Example time_coercion_sample :
  match process_earthquake_data (pd := pandas_plain)
          (payload_of [sample_feature; feature_without_geometry; feature_text_time])
  with
  | Ok df => time <$> rows df
  | Raise _ => []
  end = [Timestamp 1700000000000000000; TNone; NaT].
Proof. reflexivity. Qed.

(** * Properties of the normaliser over the store *)

Section StoreFacts.
Import Store StoreSpec.
Variable to_datetime_ms : heap → val → result timeval.






(** ** Nothing that was in the store is written *)











(** ** The loop runs over every element of the list *)

Lemma keeps_ret {A : Type} (l : loc) (o : obj) (a : A) : keeps l o (mret a).
Proof. by intros h Hh. Qed.

Lemma keeps_observe {A : Type} (l : loc) (o : obj) (f : heap → result A) :
  keeps l o (observe f).
Proof. by intros h Hh. Qed.

Lemma keeps_alloc (l : loc) (o o' : obj) : keeps l o (alloc o').
Proof. intros h Hh. by apply lookup_app_l_Some. Qed.

Lemma keeps_bind {A B : Type} (l : loc) (o : obj) (m : M A) (f : A → M B) :
  keeps l o m → (∀ a, keeps l o (f a)) → keeps l o (m ≫= f).
Proof.
  intros Hm Hf h Hh. specialize (Hm h Hh). unfold mbind, M_bind.
  destruct (m h) as [[a|e] h']; [by apply Hf|done].
Qed.

Lemma keeps_append (l : loc) (o : obj) (R : loc) (x : val) :
  l ≠ R → keeps l o (list_append (VRef R) x).
Proof.
  intros HR h Hh. unfold list_append.
  destruct (h !! R) as [[m|xs]|]; try done. cbn [snd].
  by rewrite list_lookup_insert_ne.
Qed.

(** The body of the loop writes the list of records and no other object. *)
Lemma process_feature_keeps (l : loc) (o : obj) (R : loc) (feature : val) :
  l ≠ R → keeps l o (process_feature to_datetime_ms (VRef R) feature).
Proof.
  intros HR. unfold process_feature.
  repeat (apply keeps_bind;
          [first [apply keeps_alloc | apply keeps_observe]|intros ?]).
  by apply keeps_append.
Qed.

(** When the body leaves the list alone, as many steps as the list has
    elements run the body on each of them in turn: the loop over the
    object is the loop over its elements. *)
Lemma for_list_all (l : loc) (xs : list val) (body : val → M unit) :
  (∀ x, keeps l (OList xs) (body x)) →
  ∀ (n i : nat) (h : heap),
    n = length xs - i → h !! l = Some (OList xs) →
    for_list n l i body h = for_items (drop i xs) body h.
Proof.
  intros Hbody n. induction n as [|n IH]; intros i h Hn Hh.
  - rewrite drop_ge by lia. done.
  - destruct (lookup_lt_is_Some_2 xs i ltac:(lia)) as [x Hx].
    rewrite (drop_S _ _ _ Hx). cbn [for_list for_items]. rewrite Hh, Hx.
    unfold mbind, M_bind. pose proof (Hbody x h Hh) as Hkeep.
    destruct (body x h) as [[[]|e] h']; [|done].
    apply IH; [lia|done].
Qed.

(** The loop of the source over a list of features other than the list of
    records. *)
Lemma for_each_list (l : loc) (xs : list val) (R : loc) (h : heap) :
  l ≠ R → h !! l = Some (OList xs) →
  for_each (VRef l) (process_feature to_datetime_ms (VRef R)) h =
  for_items xs (process_feature to_datetime_ms (VRef R)) h.
Proof.
  intros HR Hh. unfold for_each. rewrite Hh.
  rewrite (for_list_all l xs _ (λ x, process_feature_keeps l _ R x HR)
             (length xs) 0 h); [done|lia|done].
Qed.

(** ** What the frame refers to *)





















(** ** The cells of the frame *)














End StoreFacts.

(** ** The normaliser over the sample stores *)

Section StoreSamples.
Import Store StoreSpec.






(** The cell of [place] of that row is the reference that the store holds
    under [properties.place]: the list of the payload, not a copy. *)
Example place_cell_is_payload_reference :
  properties_field store_place_list (VRef 2) "place" = VRef 0 ∧
  row_of store_place_list (VRef 2) TNone !! "place" = Some (VRef 0) ∧
  rows frame_place_list = [row_of store_place_list (VRef 2) TNone].
Proof. by vm_compute. Qed.

(** On the store of the sample payload the cells are the scalars of the
    tree of the same payload, and the six objects of the payload are
    followed by the nine the call created. *)
Example process_store_sample :
  let out := process_earthquake_data to_datetime_plain (VRef 5) store_sample in
  match out.1 with
  | Ok df => (λ row : gmap string val, (row !!.) <$> record_columns) <$> rows df
  | Raise _ => []
  end
  = replicate 2 [Some (VStr "10km N of Test"); Some (VFloat 4.5);
                 Some (VTime (Timestamp 1700000000000000000));
                 Some (VFloat (-122.4)); Some (VFloat 37.8); Some (VFloat 10.5);
                 Some (VInt 0); Some (VInt 12)] ∧
  take 6 out.2 = store_sample ∧ length out.2 = 15.
Proof. by vm_compute. Qed.

End StoreSamples.

(** * Further properties of the fetcher *)

Section FetcherMore.
Variable net : Request → result Response.

(** X1. Whatever the network does, the fetcher returns, and what it
    returns passes the test ["features" in data]: this is the guarantee
    the [try] block and its four handlers establish together. *)
Theorem fetch_result_passes_in_test (min_magnitude : float) (limit : Z) (w : World) :
  ∃ data, (fetch_earthquake_data net min_magnitude limit w).1 = Ok data ∧
          py_contains data "features" = Ok true.
Proof.
  rewrite fetch_refines_validate. cbn zeta.
  destruct (validate _) as [f|data] eqn:Hv; cbn [fst].
  - exists empty_payload. split; reflexivity.
  - exists data. split; [reflexivity|]. unfold validate in Hv.
    repeat case_match; simplify_eq; cbn [py_contains]; f_equal; try done.
    apply bool_decide_eq_true_2. eauto.
Qed.

(** X2. The status is checked before the body is looked at: an answer
    with a status from 400 to 599 is reported as an HTTP error, with the
    status, the reason and the URL, and the canonical empty payload is
    returned, even when the body is a payload with features. *)
Theorem fetch_error_status_first
        (min_magnitude : float) (limit : Z) (w : World) (r : Response) :
  net (catalog_request min_magnitude limit) = Ok r →
  (400 ≤ status_code r < 600)%Z →
  let out := fetch_earthquake_data net min_magnitude limit w in
  out.1 = Ok empty_payload ∧
  shown out.2 =
    shown w ++ ["HTTP error occurred: " +:+ pretty (status_code r)
                +:+ (if (status_code r <? 500)%Z
                     then " Client Error: " else " Server Error: ")
                +:+ reason r +:+ " for url: " +:+ resp_url r].
Proof.
  intros Hnet [Hlo Hhi]. cbn zeta. rewrite fetch_refines_validate. cbn zeta.
  rewrite Hnet. unfold validate.
  destruct (status_code r <? 500)%Z eqn:H5.
  - rewrite (proj2 (Z.leb_le _ _) Hlo). cbn [andb diagnostic fst snd shown]. done.
  - rewrite andb_false_r.
    assert ((500 <=? status_code r)%Z = true) as -> by lia.
    rewrite (proj2 (Z.ltb_lt _ _) Hhi). cbn [andb diagnostic fst snd shown]. done.
Qed.

(** X3. The success path: when the status is outside 400 to 599, the body
    is not blank and decodes to a mapping with the key [features], the
    fetcher returns that mapping as it is and shows nothing. A status such
    as 204 or 301 is not an error for it. *)
Theorem fetch_returns_body_untouched
        (min_magnitude : float) (limit : Z) (w : World) (r : Response)
        (m : gmap string json) :
  net (catalog_request min_magnitude limit) = Ok r →
  ¬ (400 ≤ status_code r < 600)%Z →
  blank (text r) = false →
  json_body r = Some (JObj m) →
  is_Some (m !! "features") →
  fetch_earthquake_data net min_magnitude limit w =
  (Ok (JObj m), {| sent := sent w ++ [catalog_request min_magnitude limit];
                   shown := shown w |}).
Proof.
  intros Hnet Hst Hblank Hbody [fs Hfs]. rewrite fetch_refines_validate. cbn zeta.
  rewrite Hnet. unfold validate.
  assert (((400 <=? status_code r)%Z && (status_code r <? 500)%Z) = false) as -> by lia.
  assert (((500 <=? status_code r)%Z && (status_code r <? 600)%Z) = false) as -> by lia.
  rewrite Hblank, Hbody, Hfs. done.
Qed.

(** X4. A body made of white space only is reported as an empty response,
    before any decoding is tried: the diagnostic is the one of the empty
    response and not the one of a body that is not JSON. *)
Theorem fetch_blank_body_is_empty_response
        (min_magnitude : float) (limit : Z) (w : World) (r : Response) :
  net (catalog_request min_magnitude limit) = Ok r →
  ¬ (400 ≤ status_code r < 600)%Z →
  blank (text r) = true →
  let out := fetch_earthquake_data net min_magnitude limit w in
  out.1 = Ok empty_payload ∧
  shown out.2 =
    shown w ++ ["Unexpected error occurred: Empty response received from API"].
Proof.
  intros Hnet Hst Hblank. cbn zeta. rewrite fetch_refines_validate. cbn zeta.
  rewrite Hnet. unfold validate.
  assert (((400 <=? status_code r)%Z && (status_code r <? 500)%Z) = false) as -> by lia.
  assert (((500 <=? status_code r)%Z && (status_code r <? 600)%Z) = false) as -> by lia.
  rewrite Hblank. done.
Qed.

(** X5. An exception of the transport that is a [Timeout] is reported as
    a timeout whatever else it is: the clause of [Timeout] comes first, so
    a [ConnectTimeout], which is a [ConnectionError] too, does not reach
    the last clause. *)
Theorem fetch_timeout_first
        (min_magnitude : float) (limit : Z) (w : World) (e : exn) :
  net (catalog_request min_magnitude limit) = Raise e →
  isinstance e Timeout = true →
  let out := fetch_earthquake_data net min_magnitude limit w in
  out.1 = Ok empty_payload ∧
  shown out.2 = shown w ++ ["Request timed out while contacting the earthquake API."].
Proof.
  intros Hnet He. cbn zeta. rewrite fetch_refines_validate. cbn zeta.
  rewrite Hnet. destruct e as [c msg]. destruct c; try done.
Qed.

(** X6. Two calls in a row send two requests, in their order, and the
    diagnostic of the first call, if any, stays before what the second
    shows: nothing is cached and a failure does not stop the next call. *)
Theorem fetch_twice (m1 m2 : float) (l1 l2 : Z) (w : World) :
  let out1 := fetch_earthquake_data net m1 l1 w in
  let out2 := fetch_earthquake_data net m2 l2 out1.2 in
  sent out2.2 = sent w ++ [catalog_request m1 l1; catalog_request m2 l2] ∧
  shown out1.2 `prefix_of` shown out2.2 ∧
  shown w `prefix_of` shown out1.2.
Proof.
  cbn zeta. rewrite !fetch_refines_validate. cbn zeta.
  destruct (validate (net (catalog_request m1 l1)));
    destruct (validate (net (catalog_request m2 l2)));
    cbn [fst snd sent shown];
    (split; [by rewrite <- app_assoc|]);
    split; first [reflexivity | by apply prefix_app_r].
Qed.

End FetcherMore.

(** * The fetcher against the validation of section 4.1 *)

Section FetcherSpecFacts.
Variable net : Request → result Response.



End FetcherSpecFacts.

(** C6. The check of the structure is the test [in] of Python, which
    on a list looks for an element. When the service answers 200 with the
    JSON array [["features"]], the validation of section 4.1 fails at step
    (e), the body having no top-level key [features]; the fetcher takes
    the success branch: it shows no diagnostic and returns the list, not
    the canonical empty payload. *)
Theorem fetch_unexpected_list_shows_nothing :
  let out := fetch_earthquake_data (answers list_body_response) 2.5 100 fresh_world in
  spec_validate (Ok list_body_response) = inl UnexpectedStructureError ∧
  shown out.2 = [] ∧
  out.1 = Ok (JArr [JStr "features"]) ∧
  out.1 ≠ Ok empty_payload.
Proof. repeat split; try reflexivity. cbn. discriminate. Qed.

(** The same with a body that is a JSON text holding the word: [in] on a
    str looks for a substring. *)
Example fetch_unexpected_text_shows_nothing :
  let body := ok_response (dquote +:+ "no features today" +:+ dquote)
                          (Some (JStr "no features today")) in
  spec_validate (Ok body) = inl UnexpectedStructureError ∧
  fetch_earthquake_data (answers body) 2.5 100 fresh_world
  = (Ok (JStr "no features today"),
     {| sent := [catalog_request 2.5 100]; shown := [] |}).
Proof. split; reflexivity. Qed.


(** * Further properties of the normaliser *)

Section NormalizerMore.
Context {pd : Pandas}.

(** What the loop returns: the records it was given, followed by one
    record for each feature, in their order. *)
Lemma for_features_returns (features : list json) (records out : list EventRecord) :
  for_features features records = Ok out →
  ∃ news, out = records ++ news ∧
          Forall2 (λ f r, process_feature f = Ok r) features news.
Proof.
  revert records. induction features as [|f fs IH]; intros records; cbn [for_features].
  - intros [= <-]. exists []. split; [by rewrite app_nil_r|constructor].
  - destruct (process_feature f) as [r|e] eqn:Hf; res_step; [|done].
    intros (news & -> & Hall)%IH. exists (r :: news).
    split; [by rewrite <- app_assoc|by constructor].
Qed.

(** The first feature without a record ends the loop with its exception. *)
Lemma for_features_raises (good : list json) (bad : json) (rest : list json)
      (records : list EventRecord) (e : exn) :
  Forall (λ f, returns (process_feature f)) good →
  process_feature bad = Raise e →
  for_features (good ++ bad :: rest) records = Raise e.
Proof.
  intros Hgood Hbad. revert records.
  induction Hgood as [|f good [r Hr] _ IH]; intros records; cbn [for_features app].
  - by rewrite Hbad.
  - rewrite Hr. res_step. apply IH.
Qed.

(** The normaliser on a mapping whose [features] is a list with an
    element: the loop, then the frame of its records. *)
Lemma process_mapping_list (m : gmap string json) (f : json) (fs : list json) :
  m !! "features" = Some (JArr (f :: fs)) →
  process_earthquake_data (JObj m) =
  (records ← for_features (f :: fs) []; mret (DataFrame_of_records records)).
Proof.
  intros Hm. unfold process_earthquake_data.
  assert (truthy (JObj m) = true) as ->.
  { cbn. apply negb_true_iff, Nat.eqb_neq. intros Hs.
    apply map_size_empty_inv in Hs. subst. by rewrite lookup_empty in Hm. }
  cbn [negb py_contains]. res_step.
  rewrite bool_decide_eq_true_2 by (rewrite Hm; eauto).
  cbn [negb getitem_str]. rewrite Hm. cbn [py_len py_iter length Nat.eqb]. done.
Qed.

Lemma length_chars (s : string) : length (chars s) = String.length s.
Proof. induction s as [|c s IH]; cbn; [done|by rewrite IH]. Qed.

(** The loop runs over as many items as [len] counts. *)
Lemma py_iter_length (v : json) (n : nat) (items : list json) :
  py_len v = Ok n → py_iter v = Ok items → length items = n.
Proof.
  destruct v; try done; cbn; intros [= <-] [= <-].
  - apply length_chars.
  - done.
  - by rewrite length_fmap, length_fmap, length_map_to_list.
Qed.

(** X7. Whenever the normaliser returns, the frame has the eight columns:
    the branch that builds the frame from the records is taken only with
    a record, so the frame without columns that pandas makes of an empty
    list never comes out. *)
Theorem process_always_eight_columns (data : json) (df : DataFrame) :
  process_earthquake_data data = Ok df →
  columns df = ["place"; "magnitude"; "time"; "longitude"; "latitude"; "depth_km";
                "tsunami_flag"; "felt_reports"].
Proof.
  unfold process_earthquake_data.
  destruct (negb (truthy data)); [by intros [= <-]|].
  destruct (py_contains data "features") as [has|]; res_step; [|done].
  destruct (negb has); [by intros [= <-]|].
  destruct (getitem_str data "features") as [fs|]; res_step; [|done].
  destruct (py_len fs) as [n|] eqn:Hn; res_step; [|done].
  destruct (n =? 0) eqn:Hn0; [by intros [= <-]|].
  destruct (py_iter fs) as [items|] eqn:Hitems; res_step; [|done].
  destruct (for_features items []) as [records|] eqn:Hloop; res_step; [|done].
  intros [= <-]. cbn [columns DataFrame_of_records].
  apply for_features_returns in Hloop as (news & -> & Hall).
  pose proof (py_iter_length _ _ _ Hn Hitems) as Hlen.
  apply Forall2_length in Hall. apply Nat.eqb_neq in Hn0.
  destruct news; [cbn in Hall; lia|done].
Qed.

(** X8. Whenever the normaliser returns on a mapping whose [features] is
    a list, the rows are the records of the features, one for each and in
    their order, whatever the features are: a feature is never skipped. *)
Theorem process_rows_follow_features
        (m : gmap string json) (fs : list json) (df : DataFrame) :
  m !! "features" = Some (JArr fs) →
  process_earthquake_data (JObj m) = Ok df →
  Forall2 (λ f r, process_feature f = Ok r) fs (rows df).
Proof.
  intros Hm. destruct fs as [|f fs].
  - rewrite process_empty by (right; eauto). intros [= <-]. constructor.
  - rewrite (process_mapping_list m f fs Hm).
    destruct (for_features (f :: fs) []) as [records|] eqn:Hloop; res_step; [|done].
    intros [= <-]. by apply for_features_returns in Hloop as (news & -> & Hall).
Qed.

(** X9. All or nothing: when a feature of the list has no record, the
    normaliser raises the exception of the first such feature, and the
    records of the features before it are lost. *)
Theorem process_first_failure_ends_batch
        (m : gmap string json) (good : list json) (bad : json) (rest : list json)
        (e : exn) :
  m !! "features" = Some (JArr (good ++ bad :: rest)) →
  Forall (λ f, returns (process_feature f)) good →
  process_feature bad = Raise e →
  process_earthquake_data (JObj m) = Raise e.
Proof.
  intros Hm Hgood Hbad.
  assert (∃ f fs, good ++ bad :: rest = f :: fs) as (f & fs & Heq)
    by (destruct good; cbn; eauto).
  rewrite Heq in Hm. rewrite (process_mapping_list m f fs Hm), <- Heq.
  by rewrite (for_features_raises good bad rest [] e Hgood Hbad).
Qed.

(** X10. The normaliser reads the key [features] of the payload and no
    other: a payload with one more top-level key (as [type], [metadata]
    or [bbox] in GeoJSON) has the same outcome. *)
Theorem process_ignores_other_keys (m : gmap string json) (key : string) (v : json) :
  key ≠ "features" →
  process_earthquake_data (JObj (<[key := v]> m)) = process_earthquake_data (JObj m).
Proof.
  intros Hkey. unfold process_earthquake_data.
  assert (truthy (JObj (<[key := v]> m)) = true) as ->.
  { cbn. apply negb_true_iff, Nat.eqb_neq. intros Hs.
    apply map_size_empty_inv in Hs. by apply insert_non_empty in Hs. }
  cbn [negb py_contains getitem_str]. rewrite lookup_insert_ne by done.
  destruct (truthy (JObj m)) eqn:Ht; cbn [negb]; [done|].
  cbn in Ht. apply negb_false_iff, Nat.eqb_eq, map_size_empty_inv in Ht as ->.
  rewrite lookup_empty. res_step.
  by rewrite bool_decide_eq_false_2 by (by intros [? ?]).
Qed.

(** X11. The body of the loop reads the keys [properties] and [geometry]
    of the feature and no other: a feature with one more key (as [id] or
    [type]) has the same record. *)
Theorem process_feature_ignores_other_keys
        (fm : gmap string json) (key : string) (v : json) :
  key ≠ "properties" → key ≠ "geometry" →
  process_feature (JObj (<[key := v]> fm)) = process_feature (JObj fm).
Proof.
  intros Hp Hg. unfold process_feature. cbn [py_get].
  by rewrite !lookup_insert_ne by done.
Qed.

(** X12. Of [properties] the body reads [place], [mag], [time], [tsunami]
    and [felt] only: one more property (as [url] or [status]) changes
    nothing. *)
Theorem process_feature_ignores_other_properties
        (fm p : gmap string json) (key : string) (v : json) :
  fm !! "properties" = Some (JObj p) →
  key ∉ ["place"; "mag"; "time"; "tsunami"; "felt"] →
  process_feature (JObj (<["properties" := JObj (<[key := v]> p)]> fm))
  = process_feature (JObj fm).
Proof.
  intros Hfm Hkey. unfold process_feature. cbn [py_get].
  rewrite lookup_insert_eq, lookup_insert_ne by done. rewrite Hfm.
  cbn [default from_option id]. res_step.
  destruct (py_get (default (JObj ∅) (fm !! "geometry")) "coordinates" _);
    [|done].
  cbn [py_get]. rewrite !lookup_insert_ne by set_solver. done.
Qed.

(** A null under a key and no key at all read the same. *)
Lemma lookup_null_or_missing (p : gmap string json) (key name : string) :
  default JNull (<[key := JNull]> p !! name) = default JNull (delete key p !! name).
Proof.
  destruct (decide (key = name)) as [->|Hne].
  - by rewrite lookup_insert_eq, lookup_delete_eq.
  - by rewrite lookup_insert_ne, lookup_delete_ne.
Qed.

(** X13. A property that is null and a property that is missing give the
    same record: [.get] answers [None] for both, so the frame cannot tell
    them apart. *)
Theorem process_feature_null_property_is_missing
        (fm p : gmap string json) (key : string) :
  process_feature (JObj (<["properties" := JObj (<[key := JNull]> p)]> fm))
  = process_feature (JObj (<["properties" := JObj (delete key p)]> fm)).
Proof.
  unfold process_feature. cbn [py_get].
  rewrite !lookup_insert_eq, !lookup_insert_ne by done.
  cbn [default from_option id]. res_step.
  destruct (py_get (default (JObj ∅) (fm !! "geometry")) "coordinates" _);
    [|done].
  cbn [py_get]. by rewrite !lookup_null_or_missing.
Qed.

(** X14. The default of [.get] stands in for a missing key only: when
    [properties] or [geometry] is there and is not a mapping (a null, as
    GeoJSON allows for a geometry, a list, a number, a text), the body
    raises an AttributeError. *)
Theorem process_feature_needs_mappings (fm : gmap string json) (v : json) :
  fm !! "properties" = Some v ∨ fm !! "geometry" = Some v →
  is_mapping v = false →
  raises (process_feature (JObj fm)) AttributeError.
Proof.
  intros Hv Hnot. unfold process_feature. cbn [py_get]. res_step.
  destruct (fm !! "geometry") as [g|] eqn:Hg; cbn [default from_option id].
  - destruct g as [| | | | | |gm]; try (eexists; reflexivity).
    destruct Hv as [Hv|Hv]; [|by simplify_eq].
    rewrite Hv. cbn [default from_option id py_get]. res_step.
    destruct v; try done; eexists; reflexivity.
  - destruct Hv as [Hv|Hv]; [|done].
    rewrite Hv. cbn [default from_option id py_get]. res_step.
    destruct v; try done; eexists; reflexivity.
Qed.

(** X15. A [coordinates] list of fewer than three elements is not padded:
    in a feature that is well formed apart from it, the body raises the
    IndexError of the first position that is not there. *)
Theorem process_feature_short_coordinates
        (fm g : gmap string json) (c : list json) :
  fm !! "geometry" = Some (JObj g) →
  g !! "coordinates" = Some (JArr c) →
  length c < 3 →
  well_formed_feature (JObj (delete "geometry" fm)) = true →
  process_feature (JObj fm) = Raise (Exn IndexError "list index out of range").
Proof.
  intros HG HC Hlen Hwf. unfold well_formed_feature in Hwf.
  rewrite lookup_delete_eq, lookup_delete_ne, andb_true_r in Hwf by done.
  assert (∃ t, to_datetime_ms (prop_field (JObj fm) "time") = Ok t) as [t Ht].
  { unfold prop_field.
    destruct (fm !! "properties") as [[| | | | | |p]|]; try done;
      [by apply to_datetime_scalar | by eexists]. }
  unfold prop_field in Ht. unfold process_feature.
  destruct (fm !! "properties") as [[| | | | | |p]|] eqn:HP; try done;
    run_feature; destruct c as [|x [|y [|z c]]]; cbn in Hlen; try lia; reflexivity.
Qed.

(** X16. A payload that is not a mapping never gives a row: the
    normaliser returns the empty frame (for a payload that tests false,
    or a list or text in which [features] does not occur) or raises a
    TypeError. *)
Theorem process_needs_mapping (data : json) :
  is_mapping data = false →
  match process_earthquake_data data with
  | Ok df => df = DataFrame_of_columns record_columns
  | Raise e => exn_cls e = TypeError
  end.
Proof.
  intros Hnot. unfold process_earthquake_data.
  destruct data as [|b|n|f|s|l|m]; try done; cbn [truthy].
  - by destruct b.
  - by destruct (n =? 0)%Z.
  - by destruct (f =? 0)%float.
  - destruct (String.length s =? 0); [done|]. cbn [negb py_contains]. res_step.
    by destruct (occurs_in "features" s).
  - destruct (length l =? 0); [done|]. cbn [negb py_contains]. res_step.
    by destruct (existsb (eq_str "features") l).
Qed.

End NormalizerMore.

(** * The coordinates and the time of a record *)

Section RecordFacts.
Context {pd : Pandas}.

(** What a record says of the feature it was made from: the coordinates
    are the positions 0, 1 and 2 of [geometry.coordinates], or, a key being
    missing, the three defaults; the time is the answer of [to_datetime]
    on [properties.time]. *)
Lemma process_feature_record (feature : json) (r : EventRecord) :
  process_feature feature = Ok r →
  match geometry_coordinates feature with
  | Some c =>
      getitem_int c 0 = Ok (longitude r) ∧
      getitem_int c 1 = Ok (latitude r) ∧
      getitem_int c 2 = Ok (depth_km r)
  | None =>
      coordinates_missing feature = true ∧
      longitude r = JNull ∧ latitude r = JNull ∧ depth_km r = JNull
  end ∧
  to_datetime_ms (prop_field feature "time") = Ok (time r).
Proof.
  unfold process_feature, geometry_coordinates, coordinates_missing, prop_field.
  destruct feature as [| | | | | |fm]; try done.
  cbn [py_get]. res_step.
  assert (∀ properties : json,
            (properties = default (JObj ∅) (fm !! "properties")) →
            ∀ t, py_get properties "time" JNull = Ok t →
                 t = match fm !! "properties" with
                     | Some (JObj p) => default JNull (p !! "time")
                     | _ => JNull
                     end) as Htime.
  { intros properties -> t.
    destruct (fm !! "properties") as [[| | | | | |p]|]; cbn; try done; by intros [= <-]. }
  specialize (Htime _ eq_refl).
  destruct (fm !! "geometry") as [[| | | | | |g]|] eqn:HG;
    cbn [default from_option id py_get]; res_step; try done.
  - destruct (g !! "coordinates") as [c|] eqn:HC; cbn [default from_option id].
    + destruct (py_get _ "place" _); res_step; [|done].
      destruct (py_get _ "mag" _); res_step; [|done].
      destruct (py_get _ "time" _) as [t|] eqn:Ht; res_step; [|done].
      rewrite <- (Htime t eq_refl).
      destruct (to_datetime_ms _); res_step; [|done].
      destruct (getitem_int c 0); res_step; [|done].
      destruct (getitem_int c 1); res_step; [|done].
      destruct (getitem_int c 2); res_step; [|done].
      destruct (py_get _ "tsunami" _); res_step; [|done].
      destruct (py_get _ "felt" _); res_step; [|done].
      by intros [= <-].
    + destruct (py_get _ "place" _); res_step; [|done].
      destruct (py_get _ "mag" _); res_step; [|done].
      destruct (py_get _ "time" _) as [t|] eqn:Ht; res_step; [|done].
      rewrite <- (Htime t eq_refl).
      destruct (to_datetime_ms _); res_step; [|done].
      cbn [getitem_int lookup list_lookup]. res_step.
      destruct (py_get _ "tsunami" _); res_step; [|done].
      destruct (py_get _ "felt" _); res_step; [|done].
      by intros [= <-].
  - destruct (py_get _ "place" _); res_step; [|done].
    destruct (py_get _ "mag" _); res_step; [|done].
    destruct (py_get _ "time" _) as [t|] eqn:Ht; res_step; [|done].
    rewrite <- (Htime t eq_refl).
    destruct (to_datetime_ms _); res_step; [|done].
    cbn [getitem_int lookup list_lookup]. res_step.
    destruct (py_get _ "tsunami" _); res_step; [|done].
    destruct (py_get _ "felt" _); res_step; [|done].
    by intros [= <-].
Qed.

(** A feature whose [properties] and [geometry] can be read and whose
    time [to_datetime] refuses has no record: the exception of the
    conversion leaves the body of the loop. *)
Lemma process_feature_time_raises
      (fm p : gmap string json) (t : json) (e : exn) :
  fm !! "properties" = Some (JObj p) →
  p !! "time" = Some t →
  (fm !! "geometry" = None ∨ ∃ g, fm !! "geometry" = Some (JObj g)) →
  to_datetime_ms t = Raise e →
  process_feature (JObj fm) = Raise e.
Proof.
  intros HP HT HG He. unfold process_feature. cbn [py_get]. rewrite HP.
  destruct HG as [HG|[g HG]]; rewrite HG;
    repeat (progress (cbn [default from_option id py_get]; res_step));
    rewrite HT; cbn [default from_option id]; by rewrite He.
Qed.


(** C7, as amended. The time of a record is the answer of
    [pd.to_datetime] on [properties.time], or on [None] when it is
    missing. On a payload of well-formed features whose times are counts
    of milliseconds within the range of [Timestamp], null or missing, the
    normaliser returns, with one row for each feature: a count gives the
    timestamp of that count, a null or missing time gives an absent time
    ([None] or [NaT]). Whatever the time is, the time of a record is what
    the conversion answers. And the conversion can fail the batch: when,
    after features that have a record, comes one whose time the
    conversion refuses, the normaliser raises the exception of the
    conversion. *)
Theorem time_coercion (m : gmap string json) (fs : list json) :
  m !! "features" = Some (JArr fs) →
  (Forall (λ f, well_formed_feature f = true ∧
                epoch_or_missing (prop_field f "time") = true) fs →
   ∃ df, process_earthquake_data (JObj m) = Ok df ∧
         length (rows df) = length fs ∧
         ∀ i f r, fs !! i = Some f → rows df !! i = Some r →
           (∀ n, prop_field f "time" = JInt n → time r = Timestamp (n * 1000000)) ∧
           (prop_field f "time" = JNull → time_absent (time r) = true)) ∧
  (∀ df, process_earthquake_data (JObj m) = Ok df →
         Forall2 (λ f r, to_datetime_ms (prop_field f "time") = Ok (time r))
                 fs (rows df)) ∧
  (∀ good fm p t rest e,
     fs = good ++ JObj fm :: rest →
     Forall (λ f, returns (process_feature f)) good →
     fm !! "properties" = Some (JObj p) →
     p !! "time" = Some t →
     (fm !! "geometry" = None ∨ ∃ g, fm !! "geometry" = Some (JObj g)) →
     to_datetime_ms t = Raise e →
     process_earthquake_data (JObj m) = Raise e).
Proof.
  intros Hm. split; [|split].
  - intros Hall.
    assert (Forall (λ f, well_formed_feature f = true) fs) as Hwf.
    { eapply Forall_impl; [exact Hall|]. by intros f [? _]. }
    destruct (process_well_formed m fs Hm Hwf) as (df & Hdf & _ & Hrec).
    exists df. split; [done|]. split; [by rewrite (Forall2_length _ _ _ Hrec)|].
    intros i f r Hi Hr.
    destruct (Forall2_lookup_l _ _ _ _ _ Hrec Hi) as (r' & Hr' & Hm').
    simplify_eq. destruct Hm' as (_ & _ & Ht & _).
    rewrite Forall_lookup in Hall. destruct (Hall i f Hi) as [_ Hep].
    split.
    + intros n Hn. rewrite Hn in Ht, Hep. cbn in Ht, Hep. rewrite Hep in Ht. congruence.
    + intros Hn. rewrite Hn in Ht. cbn in Ht. injection Ht as <-.
      by destruct none_is_nat.
  - intros df Hdf. destruct fs as [|f fs].
    + rewrite process_empty in Hdf by (right; eauto). injection Hdf as <-. constructor.
    + rewrite (process_mapping_list m f fs Hm) in Hdf.
      destruct (for_features (f :: fs) []) as [records|] eqn:Hloop; [|done].
      revert Hdf. res_step. intros [= <-].
      apply for_features_returns in Hloop as (news & -> & Hrec).
      cbn [rows DataFrame_of_records app].
      eapply Forall2_impl; [exact Hrec|].
      intros f' r' Hr'. by destruct (process_feature_record f' r' Hr').
  - intros good fm p t rest e -> Hgood HP HT HG He.
    pose proof (process_feature_time_raises fm p t e HP HT HG He) as Hbad.
    assert (∃ f fs', good ++ JObj fm :: rest = f :: fs') as (f & fs' & Heq)
      by (destruct good; cbn; eauto).
    rewrite Heq in Hm. rewrite (process_mapping_list m f fs' Hm), <- Heq.
    by rewrite (for_features_raises good (JObj fm) rest [] e Hgood Hbad).
Qed.

End RecordFacts.

(** * The fetcher and the normaliser together *)

Section PipelineFacts.
Context {pd : Pandas}.
Variable net : Request → result Response.

(** The two calls of the script, as a function of what the network
    answers. *)
Lemma fetch_and_process_validate (min_magnitude : float) (limit : Z) (w : World) :
  fetch_and_process net min_magnitude limit w =
  let rq := catalog_request min_magnitude limit in
  match validate (net rq) with
  | inl f => (process_earthquake_data empty_payload,
              {| sent := sent w ++ [rq]; shown := shown w ++ [diagnostic f] |})
  | inr data => (process_earthquake_data data,
                 {| sent := sent w ++ [rq]; shown := shown w |})
  end.
Proof.
  unfold fetch_and_process. io_step. rewrite fetch_refines_validate. cbn zeta.
  by destruct (validate _).
Qed.

(** A body that the validation lets through passes the test [in]. *)
Lemma validate_passes_in_test (outcome : result Response) (data : json) :
  validate outcome = inr data → py_contains data "features" = Ok true.
Proof.
  unfold validate. intros Hv.
  repeat case_match; simplify_eq; cbn [py_contains]; f_equal; try done.
  apply bool_decide_eq_true_2. eauto.
Qed.

(** X17. Whatever makes the fetch fail, the script goes on with the empty
    frame: no row, the eight columns, and the one diagnostic of the
    failure shown. The normaliser needs no case for a failed fetch. *)
Theorem failed_fetch_gives_empty_frame
        (min_magnitude : float) (limit : Z) (w : World) (f : failure) :
  validate (net (catalog_request min_magnitude limit)) = inl f →
  fetch_and_process net min_magnitude limit w =
  (Ok {| columns := record_columns; rows := [] |},
   {| sent := sent w ++ [catalog_request min_magnitude limit];
      shown := shown w ++ [diagnostic f] |}).
Proof.
  intros Hv. rewrite fetch_and_process_validate. cbn zeta. rewrite Hv. done.
Qed.

(** X18. When the service answers with a status outside 400 to 599 and a
    body that decodes to a mapping whose [features] is a list of N
    well-formed features, the script gets a frame of N rows with the eight
    columns, each row being the record of its feature, and nothing is
    shown. *)
Theorem good_answer_gives_frame
        (min_magnitude : float) (limit : Z) (w : World) (r : Response)
        (m : gmap string json) (fs : list json) :
  net (catalog_request min_magnitude limit) = Ok r →
  ¬ (400 ≤ status_code r < 600)%Z →
  blank (text r) = false →
  json_body r = Some (JObj m) →
  m !! "features" = Some (JArr fs) →
  Forall (λ f, well_formed_feature f = true) fs →
  ∃ df, fetch_and_process net min_magnitude limit w =
        (Ok df, {| sent := sent w ++ [catalog_request min_magnitude limit];
                   shown := shown w |}) ∧
        columns df = record_columns ∧
        length (rows df) = length fs ∧
        Forall2 record_matches fs (rows df).
Proof.
  intros Hnet Hst Hblank Hbody Hm Hwf.
  destruct (process_well_formed m fs Hm Hwf) as (df & Hdf & _ & Hrec).
  exists df. split; [|split; [|split; [|done]]].
  - rewrite fetch_and_process_validate. cbn zeta. rewrite Hnet. unfold validate.
    assert (((400 <=? status_code r)%Z && (status_code r <? 500)%Z) = false) as -> by lia.
    assert (((500 <=? status_code r)%Z && (status_code r <? 600)%Z) = false) as -> by lia.
    rewrite Hblank, Hbody, Hm, Hdf. done.
  - destruct fs as [|f fs].
    + rewrite process_empty in Hdf by (right; eauto). by injection Hdf as <-.
    + destruct (well_formed_records _ Hwf) as (records & Hrun & _).
      rewrite (process_features_list m f fs records Hm) in Hdf
        by (by apply (for_features_all _ [])).
      injection Hdf as <-. apply Forall2_length in Hrun.
      by destruct records.
  - symmetry. by eapply Forall2_length.
Qed.

(** X19. When the fetcher lets through a body that is not a mapping (a
    list that holds [features], a text in which it occurs), the script
    stops on the TypeError of the normaliser, and no diagnostic has been
    shown: the check of the fetcher and the guard of the normaliser both
    use [in], and neither asks for a mapping. *)
Theorem unchecked_body_raises_in_normaliser
        (min_magnitude : float) (limit : Z) (w : World) (data : json) :
  validate (net (catalog_request min_magnitude limit)) = inr data →
  is_mapping data = false →
  let out := fetch_and_process net min_magnitude limit w in
  raises out.1 TypeError ∧ shown out.2 = shown w.
Proof.
  intros Hv Hnot. cbn zeta. rewrite fetch_and_process_validate. cbn zeta.
  rewrite Hv. cbn [fst snd shown]. split; [|done].
  apply validate_passes_in_test in Hv. unfold process_earthquake_data.
  destruct data as [| | | |s|l|m]; try done; cbn in Hv; injection Hv as Hv.
  - destruct s as [|c s]; [done|]. cbn [truthy String.length Nat.eqb negb py_contains].
    res_step. rewrite Hv. eexists. reflexivity.
  - destruct l as [|x l]; [done|]. cbn [truthy length Nat.eqb negb py_contains].
    res_step. rewrite Hv. eexists. reflexivity.
Qed.

End PipelineFacts.

(** ** The further properties on the sample data *)

Lemma fetch_error_status_first_witness :
  (400 ≤ status_code not_found_response < 600)%Z ∧
  (fetch_earthquake_data (answers not_found_response) 2.5 100 fresh_world).1
  = Ok empty_payload.
Proof.
  assert (400 ≤ status_code not_found_response < 600)%Z as H by (cbn; lia).
  split; [exact H|].
  exact (proj1 (fetch_error_status_first (answers not_found_response) 2.5 100
                  fresh_world not_found_response eq_refl H)).
Defined.

Lemma fetch_returns_body_untouched_witness :
  ¬ (400 ≤ status_code (ok_response "{}" (Some (payload_of [sample_feature]))) < 600)%Z ∧
  fetch_earthquake_data
    (answers (ok_response "{}" (Some (payload_of [sample_feature])))) 2.5 100 fresh_world
  = (Ok (JObj (payload_map [sample_feature])),
     {| sent := sent fresh_world ++ [catalog_request 2.5 100];
        shown := shown fresh_world |}).
Proof.
  assert (¬ (400 ≤ status_code (ok_response "{}" (Some (payload_of [sample_feature])))
             < 600)%Z) as H by (cbn; lia).
  split; [exact H|].
  exact (fetch_returns_body_untouched
           (answers (ok_response "{}" (Some (payload_of [sample_feature]))))
           2.5 100 fresh_world _ (payload_map [sample_feature])
           eq_refl H eq_refl eq_refl (ex_intro _ (JArr [sample_feature]) eq_refl)).
Defined.

Lemma fetch_blank_body_is_empty_response_witness :
  blank (text (ok_response "   " None)) = true ∧
  shown (fetch_earthquake_data (answers (ok_response "   " None)) 2.5 100 fresh_world).2
  = shown fresh_world ++ ["Unexpected error occurred: Empty response received from API"].
Proof.
  assert (¬ (400 ≤ status_code (ok_response "   " None) < 600)%Z) as H by (cbn; lia).
  split; [reflexivity|].
  exact (proj2 (fetch_blank_body_is_empty_response (answers (ok_response "   " None))
                  2.5 100 fresh_world _ eq_refl H eq_refl)).
Defined.

Lemma fetch_timeout_first_witness :
  isinstance (Exn ConnectTimeout "timed out") Timeout = true ∧
  isinstance (Exn ConnectTimeout "timed out") ConnectionError = true ∧
  shown (fetch_earthquake_data (fails (Exn ConnectTimeout "timed out"))
           2.5 100 fresh_world).2
  = shown fresh_world ++ ["Request timed out while contacting the earthquake API."].
Proof.
  split; [reflexivity|]. split; [reflexivity|].
  exact (proj2 (fetch_timeout_first (fails (Exn ConnectTimeout "timed out"))
                  2.5 100 fresh_world _ eq_refl eq_refl)).
Defined.

Lemma process_always_eight_columns_witness :
  process_earthquake_data (pd := pandas_plain) (payload_of [sample_feature])
  = Ok {| columns := record_columns; rows := [sample_record] |} ∧
  columns {| columns := record_columns; rows := [sample_record] |}
  = ["place"; "magnitude"; "time"; "longitude"; "latitude"; "depth_km";
     "tsunami_flag"; "felt_reports"].
Proof.
  split; [reflexivity|].
  exact (process_always_eight_columns (pd := pandas_plain)
           (payload_of [sample_feature]) _ eq_refl).
Defined.

Lemma process_rows_follow_features_witness :
  process_earthquake_data (pd := pandas_plain) (JObj (payload_map [sample_feature]))
  = Ok {| columns := record_columns; rows := [sample_record] |} ∧
  Forall2 (λ f r, process_feature (pd := pandas_plain) f = Ok r)
          [sample_feature] [sample_record].
Proof.
  split; [reflexivity|].
  exact (process_rows_follow_features (pd := pandas_plain)
           (payload_map [sample_feature]) [sample_feature]
           {| columns := record_columns; rows := [sample_record] |} eq_refl eq_refl).
Defined.

Lemma process_first_failure_ends_batch_witness :
  Forall (λ f, returns (process_feature (pd := pandas_plain) f)) [sample_feature] ∧
  process_feature (pd := pandas_plain) feature_two_coordinates
  = Raise (Exn IndexError "list index out of range") ∧
  process_earthquake_data (pd := pandas_plain)
    (JObj (payload_map ([sample_feature] ++
                        feature_two_coordinates :: [feature_without_geometry])))
  = Raise (Exn IndexError "list index out of range").
Proof.
  assert (Forall (λ f, returns (process_feature (pd := pandas_plain) f))
                 [sample_feature]) as H.
  { constructor; [|constructor]. exists sample_record. reflexivity. }
  split; [exact H|]. split; [reflexivity|].
  exact (process_first_failure_ends_batch (pd := pandas_plain)
           (payload_map ([sample_feature] ++
                         feature_two_coordinates :: [feature_without_geometry]))
           [sample_feature] feature_two_coordinates [feature_without_geometry]
           _ eq_refl H eq_refl).
Defined.

Lemma process_ignores_other_keys_witness :
  "type" ≠ "features" ∧
  process_earthquake_data (pd := pandas_plain)
    (JObj (<["type" := JStr "FeatureCollection"]> (payload_map [sample_feature])))
  = process_earthquake_data (pd := pandas_plain) (JObj (payload_map [sample_feature])).
Proof.
  assert ("type" ≠ "features") as H by discriminate.
  split; [exact H|].
  exact (process_ignores_other_keys (pd := pandas_plain)
           (payload_map [sample_feature]) "type" (JStr "FeatureCollection") H).
Defined.

Lemma process_feature_ignores_other_keys_witness :
  "id" ≠ "properties" ∧ "id" ≠ "geometry" ∧
  process_feature (pd := pandas_plain)
    (JObj (<["id" := JStr "us7000abcd"]> {[ "geometry" := JObj ∅ ]}))
  = process_feature (pd := pandas_plain) (JObj {[ "geometry" := JObj ∅ ]}).
Proof.
  assert ("id" ≠ "properties") as H1 by discriminate.
  assert ("id" ≠ "geometry") as H2 by discriminate.
  split; [exact H1|]. split; [exact H2|].
  exact (process_feature_ignores_other_keys (pd := pandas_plain)
           {[ "geometry" := JObj ∅ ]} "id" (JStr "us7000abcd") H1 H2).
Defined.

Lemma process_feature_ignores_other_properties_witness :
  ("url" ∉ ["place"; "mag"; "time"; "tsunami"; "felt"]) ∧
  process_feature (pd := pandas_plain)
    (JObj (<["properties" := JObj (<["url" := JStr "https://example.org"]>
                                     {[ "mag" := JFloat 5.1 ]})]>
             {[ "properties" := JObj {[ "mag" := JFloat 5.1 ]} ]}))
  = process_feature (pd := pandas_plain)
      (JObj {[ "properties" := JObj {[ "mag" := JFloat 5.1 ]} ]}).
Proof.
  assert ("url" ∉ ["place"; "mag"; "time"; "tsunami"; "felt"]) as H
    by (apply (bool_decide_unpack _); reflexivity).
  split; [exact H|].
  exact (process_feature_ignores_other_properties (pd := pandas_plain)
           {[ "properties" := JObj {[ "mag" := JFloat 5.1 ]} ]}
           {[ "mag" := JFloat 5.1 ]} "url" (JStr "https://example.org") eq_refl H).
Defined.

Lemma process_feature_needs_mappings_witness :
  is_mapping JNull = false ∧
  raises (process_feature (pd := pandas_plain) (JObj {[ "geometry" := JNull ]}))
         AttributeError.
Proof.
  split; [reflexivity|].
  exact (process_feature_needs_mappings (pd := pandas_plain)
           {[ "geometry" := JNull ]} JNull (or_intror eq_refl) eq_refl).
Defined.

Lemma process_feature_short_coordinates_witness :
  length [JFloat 142.5; JFloat 38.25] < 3 ∧
  process_feature (pd := pandas_plain) feature_two_coordinates
  = Raise (Exn IndexError "list index out of range").
Proof.
  assert (length [JFloat 142.5; JFloat 38.25] < 3) as H by (cbn; lia).
  split; [exact H|].
  exact (process_feature_short_coordinates (pd := pandas_plain)
           {[ "geometry" := JObj {[ "coordinates" := JArr [JFloat 142.5; JFloat 38.25] ]} ]}
           {[ "coordinates" := JArr [JFloat 142.5; JFloat 38.25] ]}
           [JFloat 142.5; JFloat 38.25] eq_refl eq_refl H eq_refl).
Defined.

Lemma process_needs_mapping_witness :
  is_mapping (JArr [JStr "unrelated"]) = false ∧
  match process_earthquake_data (pd := pandas_plain) (JArr [JStr "unrelated"]) with
  | Ok df => df = DataFrame_of_columns record_columns
  | Raise e => exn_cls e = TypeError
  end.
Proof.
  split; [reflexivity|].
  exact (process_needs_mapping (pd := pandas_plain) (JArr [JStr "unrelated"]) eq_refl).
Defined.

Lemma failed_fetch_gives_empty_frame_witness :
  validate (fails (Exn ReadTimeout "Read timed out.") (catalog_request 2.5 100))
  = inl TimeoutError ∧
  fetch_and_process (pd := pandas_plain) (fails (Exn ReadTimeout "Read timed out."))
    2.5 100 fresh_world
  = (Ok {| columns := record_columns; rows := [] |},
     {| sent := sent fresh_world ++ [catalog_request 2.5 100];
        shown := shown fresh_world ++ [diagnostic TimeoutError] |}).
Proof.
  split; [reflexivity|].
  exact (failed_fetch_gives_empty_frame (pd := pandas_plain)
           (fails (Exn ReadTimeout "Read timed out.")) 2.5 100 fresh_world
           TimeoutError eq_refl).
Defined.

Lemma good_answer_gives_frame_witness :
  Forall (λ f, well_formed_feature f = true) [sample_feature; feature_without_geometry] ∧
  ∃ df, fetch_and_process (pd := pandas_plain)
          (answers (ok_response "{}"
                      (Some (payload_of [sample_feature; feature_without_geometry]))))
          2.5 100 fresh_world
        = (Ok df, {| sent := sent fresh_world ++ [catalog_request 2.5 100];
                     shown := shown fresh_world |}) ∧
        columns df = record_columns ∧
        length (rows df) = 2 ∧
        Forall2 (record_matches (H := pandas_plain))
                [sample_feature; feature_without_geometry] (rows df).
Proof.
  assert (Forall (λ f, well_formed_feature f = true)
                 [sample_feature; feature_without_geometry]) as Hwf
    by repeat constructor.
  assert (¬ (400 ≤ status_code
               (ok_response "{}"
                  (Some (payload_of [sample_feature; feature_without_geometry])))
             < 600)%Z) as Hst by (cbn; lia).
  split; [exact Hwf|].
  exact (good_answer_gives_frame (pd := pandas_plain)
           (answers (ok_response "{}"
                       (Some (payload_of [sample_feature; feature_without_geometry]))))
           2.5 100 fresh_world _
           (payload_map [sample_feature; feature_without_geometry])
           [sample_feature; feature_without_geometry]
           eq_refl Hst eq_refl eq_refl eq_refl Hwf).
Defined.

Lemma unchecked_body_raises_in_normaliser_witness :
  validate (answers list_body_response (catalog_request 2.5 100))
  = inr (JArr [JStr "features"]) ∧
  is_mapping (JArr [JStr "features"]) = false ∧
  let out := fetch_and_process (pd := pandas_plain) (answers list_body_response)
               2.5 100 fresh_world in
  raises out.1 TypeError ∧ shown out.2 = shown fresh_world.
Proof.
  split; [reflexivity|]. split; [reflexivity|].
  exact (unchecked_body_raises_in_normaliser (pd := pandas_plain)
           (answers list_body_response) 2.5 100 fresh_world
           (JArr [JStr "features"]) eq_refl eq_refl).
Defined.

(** ** The coordinates and the time on the sample data *)



(** The record of a feature whose [geometry] has the three coordinates. *)
Example coordinates_of_sample_feature :
  match process_feature (pd := pandas_plain) sample_feature with
  | Ok r => [longitude r; latitude r; depth_km r]
  | Raise _ => []
  end = [JFloat (-122.4); JFloat 37.8; JFloat 10.5].
Proof. reflexivity. Qed.

Lemma time_coercion_witness :
  Forall (λ f, well_formed_feature f = true ∧
               epoch_or_missing (prop_field f "time") = true)
         [sample_feature; feature_without_geometry] ∧
  (∃ df, process_earthquake_data (pd := pandas_plain)
           (payload_of [sample_feature; feature_without_geometry]) = Ok df ∧
         length (rows df) = 2 ∧
         ∀ i f r,
           [sample_feature; feature_without_geometry] !! i = Some f →
           rows df !! i = Some r →
           (∀ n, prop_field f "time" = JInt n → time r = Timestamp (n * 1000000)) ∧
           (prop_field f "time" = JNull → time_absent (time r) = true)) ∧
  process_earthquake_data (pd := pandas_plain)
    (payload_of [sample_feature; feature_mapping_time])
  = Raise (Exn ValueError
             ("to assemble mappings requires at least that [year, month, day] be specified: "
              +:+ "[day,month,year] is missing")).
Proof.
  assert (Forall (λ f, well_formed_feature f = true ∧
                       epoch_or_missing (prop_field f "time") = true)
                 [sample_feature; feature_without_geometry]) as Hwf
    by (repeat constructor).
  split; [exact Hwf|]. split.
  - exact (proj1 (time_coercion (pd := pandas_plain)
                    (payload_map [sample_feature; feature_without_geometry])
                    [sample_feature; feature_without_geometry] eq_refl) Hwf).
  - refine (proj2 (proj2 (time_coercion (pd := pandas_plain)
                            (payload_map [sample_feature; feature_mapping_time])
                            [sample_feature; feature_mapping_time] eq_refl))
              [sample_feature] {[ "properties" := JObj {[ "time" := JObj ∅ ]} ]}
              {[ "time" := JObj ∅ ]} (JObj ∅) [] _ eq_refl _ eq_refl eq_refl
              (or_introl eq_refl) eq_refl).
    repeat constructor. eexists. reflexivity.
Defined.

(** * Further properties of the normaliser over the store *)

Section StoreMore.
Import Store StoreSpec.
Variable to_datetime_ms : heap → val → result timeval.

(** X20. The list the loop runs over is never the list it appends to: on
    a payload whose [features] is a list object with an element, the call
    creates the list of records, runs the body once on each element the
    list had at the start, in their order, and then builds the frame.
    Nothing the body does adds a step to the loop or takes one away. *)
Theorem process_visits_each_feature_once
        (h : heap) (l0 l : loc) (m : gmap string val) (x : val) (xs : list val) :
  h !! l0 = Some (ODict m) →
  m !! "features" = Some (VRef l) →
  h !! l = Some (OList (x :: xs)) →
  process_earthquake_data to_datetime_ms (VRef l0) h =
  (_ ← for_items (x :: xs) (process_feature to_datetime_ms (VRef (length h)));
   observe (DataFrame_of_records (VRef (length h)))) (h ++ [OList []]).
Proof.
  intros Hl0 Hm Hl. unfold process_earthquake_data.
  unfold mbind at 1, M_bind at 1, observe at 1. cbn [truthy]. rewrite Hl0.
  assert (negb (negb (size m =? 0)) = false) as ->.
  { apply negb_false_iff, negb_true_iff, Nat.eqb_neq. intros Hs.
    apply map_size_empty_inv in Hs. subst. by rewrite lookup_empty in Hm. }
  unfold mbind at 1, M_bind at 1, observe at 1. cbn [py_contains]. rewrite Hl0.
  rewrite bool_decide_eq_true_2 by (rewrite Hm; eauto). cbn [negb].
  unfold mbind at 1, M_bind at 1, observe at 1. cbn [getitem_str]. rewrite Hl0, Hm.
  unfold mbind at 1, M_bind at 1, observe at 1. cbn [py_len]. rewrite Hl.
  cbn [length Nat.eqb].
  unfold mbind at 1, M_bind at 1, alloc at 1.
  unfold mbind at 1, M_bind at 1, observe at 1. cbn [getitem_str].
  rewrite (lookup_app_l_Some _ _ _ _ Hl0), Hm.
  unfold mbind, M_bind.
  rewrite (for_each_list to_datetime_ms l (x :: xs) (length h));
    [done| |by apply lookup_app_l_Some].
  apply lookup_lt_Some in Hl. lia.
Qed.

End StoreMore.

Lemma process_visits_each_feature_once_witness :
  StoreSpec.store_sample !! 4 = Some (Store.OList [Store.VRef 3; Store.VRef 3]) ∧
  Store.process_earthquake_data Store.to_datetime_plain (Store.VRef 5)
    StoreSpec.store_sample =
  (_ ← Store.for_items [Store.VRef 3; Store.VRef 3]
         (Store.process_feature Store.to_datetime_plain (Store.VRef 6));
   Store.observe (Store.DataFrame_of_records (Store.VRef 6)))
    (StoreSpec.store_sample ++ [Store.OList []]).
Proof.
  split; [reflexivity|].
  exact (process_visits_each_feature_once Store.to_datetime_plain
           StoreSpec.store_sample 5 4 {[ "features" := Store.VRef 4 ]}
           (Store.VRef 3) [Store.VRef 3] eq_refl eq_refl eq_refl).
Defined.
